(** * nougat/utils/dataset.py: data loading for the document-to-text model

    A shallow embedding of the dataset classes of [nougat/utils/dataset.py]
    and the properties of their indexing, laziness and batch assembly.

    Python values are modelled by their Rocq counterparts: [int] is [Z],
    [str] is [string], [list] is [list] with Python's indexing (negative
    indices count from the end, anything else out of range raises
    [IndexError]), [dict] with string keys is [gmap string _], and [None] in
    an optional position is [None] of [option].  A call that may raise
    returns a [result]. *)

From Stdlib Require Import ZArith Lia Ascii.
From stdpp Require Import base option list strings gmap.

Set Warnings "-register-all".

Local Open Scope string_scope.
Local Open Scope list_scope.
Local Open Scope Z_scope.

(** ** Exceptions and results *)

Inductive exn : Type :=
  | IndexError
  | TypeError
  | ValueError
  | KeyError
  | AttributeError
  | RecursionError
  | UnidentifiedImageError
  | UnicodeDecodeError
  | OtherException (what : string).

Inductive result (A : Type) : Type :=
  | Ok (a : A)
  | Raise (e : exn).
Arguments Ok {A} a.
Arguments Raise {A} e.

Definition rbind {A B} (r : result A) (k : A -> result B) : result B :=
  match r with
  | Ok a => k a
  | Raise e => Raise e
  end.

#[global] Instance result_ret : MRet result := fun A a => Ok a.
#[global] Instance result_bind : MBind result := fun A B k r => rbind r k.

Definition raises {A} (r : result A) : Prop := exists e, r = Raise e.
Definition returns {A} (r : result A) : Prop := exists a, r = Ok a.

(** ** Python sequences *)

(** [l[i]]: indices [-len(l) <= i < 0] count from the end. *)
Definition py_getitem {A} (l : list A) (i : Z) : result A :=
  let n := Z.of_nat (length l) in
  let j := if i <? 0 then i + n else i in
  if (0 <=? j) && (j <? n) then
    match l !! Z.to_nat j with
    | Some x => Ok x
    | None => Raise IndexError
    end
  else Raise IndexError.

(** [l[i] = x], same index convention. *)
Definition py_setitem {A} (l : list A) (i : Z) (x : A) : result (list A) :=
  let n := Z.of_nat (length l) in
  let j := if i <? 0 then i + n else i in
  if (0 <=? j) && (j <? n) then Ok (<[Z.to_nat j := x]> l)
  else Raise IndexError.

(** [x is None] *)
Definition is_None {A} (x : option A) : bool :=
  match x with
  | None => true
  | Some _ => false
  end.

(** Truth value of a [str]: the empty string is false. *)
Definition truthy (s : string) : bool := negb (String.eqb s "").

(** ** Tensors

    A prepared page is a tensor: a shape and its entries in row-major
    order.  Entries are modelled as integers. *)

Record tensor : Type := { shape : list nat; data : list Z }.

(** [t * k] for a scalar [k]. *)
Definition tensor_mul (t : tensor) (k : Z) : tensor :=
  {| shape := shape t; data := (fun x => x * k) <$> data t |}.

Definition zeros_like (t : tensor) : tensor :=
  {| shape := shape t; data := replicate (length (data t)) 0 |}.

(** [image * 0] where [image] may be [None]: [None * 0] is a [TypeError]. *)
Definition opt_tensor_mul (image : option tensor) (k : Z) : result tensor :=
  match image with
  | Some t => Ok (tensor_mul t k)
  | None => Raise TypeError
  end.

(** ** LazyDataset.ignore_none_collate *)

Module Collate.

(** What [LazyDataset.__getitem__] yields: [(image, name)]. *)
Abbreviation item := (option tensor * string)%type.
(** An element of [_batch]: its image is never [None]. *)
Abbreviation slot := (tensor * string)%type.

(** One round of [for i, x in enumerate(batch)]. *)
Definition collate_step (batch : list item) (i : nat) (x : item)
    (_batch : list slot) : result (list slot) :=
  let '(image, name) := x in
  match image with
  | Some img => Ok (_batch ++ [(img, name)])
  | None =>
      if truthy name then
        if (0 <? Z.of_nat i) then
          last ← py_getitem _batch (-1);
          py_setitem _batch (-1) (last.1, name)
        else if (1 <? Z.of_nat (length batch)) then
          b1 ← py_getitem batch 1;
          zero ← opt_tensor_mul b1.1 0;
          Ok (_batch ++ [(zero, name)])
        else Ok _batch
      else Ok _batch
  end.

Fixpoint collate_loop (batch : list item) (i : nat) (rest : list item)
    (_batch : list slot) : result (list slot) :=
  match rest with
  | [] => Ok _batch
  | x :: rest' =>
      _batch' ← collate_step batch i x _batch;
      collate_loop batch (S i) rest' _batch'
  end.

(** The list [_batch] when the loop has run over all of [batch]. *)
Definition filtered (batch : list item) : result (list slot) :=
  collate_loop batch 0 batch [].

Section WithDefaultCollate.

(** [torch.utils.data.dataloader.default_collate]: the per-field
    stacked representation of a non-empty list of slots. *)
Context {stacked : Type}.
Variable default_collate : list slot -> result stacked.

(** [None] stands for the pair [(None, None)], the empty-batch
    signal. *)
Definition ignore_none_collate (batch : option (list item))
    : result (option stacked) :=
  match batch with
  | None => Ok None
  | Some batch =>
      let body :=
        _batch ← filtered batch;
        if (Z.of_nat (length _batch) =? 0) then Ok None
        else (c ← default_collate _batch; Ok (Some c)) in
      match body with
      | Raise AttributeError => Ok None
      | r => r
      end
  end.

End WithDefaultCollate.

End Collate.

(** ** ImageDataset *)

Module ImageDataset.
Section WithPrepare.

(** [raw] is what the rasterizer hands over for one page, [pil] an
    opened image.  [Image.open] and the preparation function are
    collaborators and may raise. *)
Context {raw pil : Type}.
Variable Image_open : raw -> result pil.
Variable prepare : pil -> result (option tensor).

Record t : Type := { img_list : list raw }.

Definition len (self : t) : Z := Z.of_nat (length (img_list self)).

(** [__getitem__]: every exception is logged and swallowed, the
    call then returns [None]. *)
Definition getitem (self : t) (idx : Z) : option tensor :=
  match (p ← py_getitem (img_list self) idx;
         img ← Image_open p;
         prepare img) with
  | Ok r => r
  | Raise _ => None
  end.

End WithPrepare.
End ImageDataset.

(** ** LazyDataset *)

Module LazyDataset.
Section WithPrepare.

Context {raw pil : Type}.
Variable Image_open : raw -> result pil.
Variable prepare : pil -> result (option tensor).

(** [init_fn] is [partial(rasterize_paper, pdf, pages=pages)]: a call
    rasterizes the document and returns its pages, here [pages_of_pdf].
    [rasterizations] is a ghost counter of the calls of [init_fn]; the
    code never reads it. *)
Record t : Type := {
  name : string;
  pages_of_pdf : list raw;
  dataset : option (@ImageDataset.t raw);
  size : nat;
  rasterizations : nat
}.

(** [__init__], with [str(pdf)], the page count read from the PDF (or
    [len(pages)]) and what the rasterizer will return. *)
Definition init (pdf_name : string) (page_count : nat) (pages : list raw) : t :=
  {| name := pdf_name; pages_of_pdf := pages; dataset := None;
     size := page_count; rasterizations := 0 |}.

Definition len (self : t) : Z := Z.of_nat (size self).

(** [self.dataset = ImageDataset(self.init_fn(), self.prepare)] *)
Definition materialize (self : t) : t :=
  {| name := name self; pages_of_pdf := pages_of_pdf self;
     dataset := Some {| ImageDataset.img_list := pages_of_pdf self |};
     size := size self;
     rasterizations := S (rasterizations self) |}.

Definition getitem (self : t) (i : Z)
    : result (option tensor * string) * t :=
  let self :=
    if (i =? 0) || is_None (dataset self)
    then materialize self else self in
  if (i <=? Z.of_nat (size self)) && (i >=? 0) then
    match dataset self with
    | Some d =>
        (Ok (ImageDataset.getitem Image_open prepare d i,
             if i =? Z.of_nat (size self) - 1 then name self else ""),
         self)
    | None => (Raise TypeError, self)
    end
  else (Raise IndexError, self).

(** The page set is there, and it is the rasterizer's. *)
Definition materialized (self : t) : Prop :=
  dataset self = Some {| ImageDataset.img_list := pages_of_pdf self |}.

(** A caller reading the indices [idxs] one after the other from the
    same object, whatever each read gives. *)
Fixpoint access (self : t) (idxs : list Z) : t :=
  match idxs with
  | [] => self
  | i :: idxs' => access (getitem self i).2 idxs'
  end.

End WithPrepare.
End LazyDataset.

(** ** JSON values, as [orjson.loads] returns them *)

Inductive json : Type :=
  | JNull
  | JBool (b : bool)
  | JInt (n : Z)
  | JStr (s : string)
  | JList (l : list json)
  | JDict (d : gmap string json).

(** [data.pop(key)]: only a [dict] has a [pop] taking a string key. *)
Definition json_pop (data : json) (key : string)
    : result (json * gmap string json) :=
  match data with
  | JDict d =>
      match d !! key with
      | Some v => Ok (v, delete key d)
      | None => Raise KeyError
      end
  | JList _ => Raise TypeError
  | _ => Raise AttributeError
  end.

(** ** Text files *)

Definition newline : ascii := ascii_of_nat 10.

Definition carriage_return : ascii := ascii_of_nat 13.

Fixpoint string_drop (n : nat) (s : string) : string :=
  match n, s with
  | O, _ => s
  | S n', String _ rest => string_drop n' rest
  | S _, EmptyString => EmptyString
  end.

Fixpoint string_take (n : nat) (s : string) : string :=
  match n, s with
  | O, _ => EmptyString
  | S n', String c rest => String c (string_take n' rest)
  | S _, EmptyString => EmptyString
  end.

(** A file opened with [open()] is read as text: its bytes are decoded,
    here as UTF-8 with strict errors, and the ends of lines are
    universal.  A text is held as its UTF-8 bytes.

    The decoder between two bytes: at the boundary of a character, or
    inside one, where the next byte has to be within [lo .. hi] and
    [more] continuation bytes follow it. *)
Inductive utf8_state : Type :=
  | Boundary
  | Need (more lo hi : nat).

Definition utf8_step (st : utf8_state) (c : ascii) : option utf8_state :=
  let b := nat_of_ascii c in
  match st with
  | Boundary =>
      if (b <? 128)%nat then Some Boundary
      else if ((194 <=? b) && (b <=? 223))%nat then Some (Need 0 128 191)
      else if (b =? 224)%nat then Some (Need 1 160 191)
      else if (((225 <=? b) && (b <=? 236)) || ((238 <=? b) && (b <=? 239)))%nat
      then Some (Need 1 128 191)
      else if (b =? 237)%nat then Some (Need 1 128 159)
      else if (b =? 240)%nat then Some (Need 2 144 191)
      else if ((241 <=? b) && (b <=? 243))%nat then Some (Need 2 128 191)
      else if (b =? 244)%nat then Some (Need 2 128 143)
      else None
  | Need more lo hi =>
      if ((lo <=? b) && (b <=? hi))%nat then
        Some (match more with
              | O => Boundary
              | S more' => Need more' 128 191
              end)
      else None
  end.

(** The state after [bytes]; [None] when a byte cannot be decoded. *)
Fixpoint utf8_run (st : utf8_state) (bytes : string) : option utf8_state :=
  match bytes with
  | EmptyString => Some st
  | String c rest =>
      match utf8_step st c with
      | Some st' => utf8_run st' rest
      | None => None
      end
  end.



(** The line at the head of [bytes] and the number of bytes it takes.  A
    line ends with LF, CR LF or CR, each given as LF, or with the
    file. *)
Fixpoint universal_line (bytes : string) : string * nat :=
  match bytes with
  | EmptyString => (EmptyString, O)
  | String c rest =>
      if Ascii.eqb c newline then (String newline EmptyString, 1%nat)
      else if Ascii.eqb c carriage_return then
        match rest with
        | String c' _ =>
            if Ascii.eqb c' newline then (String newline EmptyString, 2%nat)
            else (String newline EmptyString, 1%nat)
        | EmptyString => (String newline EmptyString, 1%nat)
        end
      else
        let '(line, used) := universal_line rest in
        (String c line, S used)
  end.

(** [f.seek(position)] then [f.readline()] on a file of [content].  The
    text layer reads the file by chunks and decodes what it has read:
    [ahead] is the number of bytes beyond the line that it has decoded
    when it returns.  A byte that cannot be decoded among those raises
    [UnicodeDecodeError], and so does a character cut short by the end of
    the file. *)
Definition text_readline (ahead : nat) (content : string) (position : Z)
    : result string :=
  let rest := string_drop (Z.to_nat position) content in
  let '(line, used) := universal_line rest in
  let seen := (used + ahead)%nat in
  match utf8_run Boundary (string_take seen rest) with
  | None => Raise UnicodeDecodeError
  | Some Boundary => Ok line
  | Some (Need _ _ _) =>
      if (String.length rest <=? seen)%nat then Raise UnicodeDecodeError
      else Ok line
  end.


(** [sub in s] *)
Definition contains (sub s : string) : bool :=
  match String.index 0 sub s with
  | Some _ => true
  | None => false
  end.

(** [s.replace(c, by)] for a one-character [c]. *)
Fixpoint replace_char (c : ascii) (by_ : string) (s : string) : string :=
  match s with
  | EmptyString => EmptyString
  | String a rest =>
      if Ascii.eqb a c then String.append by_ (replace_char c by_ rest)
      else String a (replace_char c by_ rest)
  end.

(** ** SciPDFDataset *)

Module SciPDFDataset.

(** An open text file: what it holds and where the next read starts. *)
Record handle : Type := { content : string; pos : Z }.

Section WithFiles.

Context {pil : Type}.
(** [orjson.loads]; [None] when it raises. *)
Variable loads : string -> option json.
(** [pathlib]: [a / b], [.parent], [.stem], [.exists()], [.open()]. *)
Variable path_join : string -> string -> string.
Variable parent : string -> string.
Variable stem : string -> string.
Variable path_exists : string -> bool.
Variable path_open : string -> result string.
(** How far beyond the line at a position the text layer has decoded the
    file when [readline()] returns. *)
Variable read_ahead : string -> Z -> nat.
(** [template % split] *)
Variable format : string -> string -> string.
(** [orjson.loads(seek_path.open().read())], a list of offsets. *)
Variable load_seek_map : string -> result (list Z).
Variable Image_open : string -> result pil.

Record sample : Type := {
  image : pil;
  ground_truth : json;
  meta : gmap string json
}.

(** [empty_sample = None] *)
Definition empty_sample : option sample := None.

Record t : Type := {
  path_to_index : string;
  root_name : string;
  path_to_root : string;
  dataset_file : option handle;
  seek_map : list Z;
  dataset_length : Z
}.

Definition init (path_to_index_ split root_name_ template : string)
    : result t :=
  let path_to_root_ := parent path_to_index_ in
  pti ←
    (if negb (contains split (stem path_to_index_)) then
       let pti := path_join path_to_root_
                    (String.append (format template split) ".jsonl") in
       if path_exists pti then Ok pti else Raise ValueError
     else Ok path_to_index_);
  let seek_path :=
    path_join path_to_root_ (String.append (stem pti) ".seek.map") in
  if path_exists seek_path then
    seek_map_ ← load_seek_map seek_path;
    Ok {| path_to_index := pti; root_name := root_name_;
          path_to_root := path_to_root_; dataset_file := None;
          seek_map := seek_map_;
          dataset_length := Z.of_nat (length seek_map_) |}
  else Raise ValueError.

Definition len (self : t) : Z := dataset_length self.

Definition with_file (self : t) (h : handle) : t :=
  {| path_to_index := path_to_index self; root_name := root_name self;
     path_to_root := path_to_root self; dataset_file := Some h;
     seek_map := seek_map self; dataset_length := dataset_length self |}.

(** The body of [__getitem__] once [line] is read. *)
Definition decode (self : t) (line : string) : result (option sample) :=
  match loads line with
  | None => Ok empty_sample
  | Some data =>
      let root := path_join (path_to_root self) (root_name self) in
      '(image_ref, data) ← json_pop data "image";
      img_path ←
        match image_ref with
        | JStr p => Ok (path_join root p)
        | _ => Raise TypeError
        end;
      if negb (path_exists img_path) then Ok empty_sample
      else
        match Image_open img_path with
        | Raise UnidentifiedImageError => Ok empty_sample
        | Raise e => Raise e
        | Ok img =>
            '(markdown, data) ← json_pop (JDict data) "markdown";
            Ok (Some {| image := img; ground_truth := markdown;
                        meta := data |})
        end
  end.

(** [seek(position)] then [readline()] on the record file. *)
Definition read_line (text : string) (position : Z) : result string :=
  text_readline (read_ahead text position) text position.

Definition getitem (self : t) (index : Z) : result (option sample) * t :=
  match py_getitem (seek_map self) index with
  | Raise e => (Raise e, self)
  | Ok position =>
      let opened :=
        match dataset_file self with
        | Some h => Ok h
        | None =>
            text ← path_open (path_to_index self);
            Ok {| content := text; pos := 0 |}
        end in
      match opened with
      | Raise e => (Raise e, self)
      | Ok h =>
          if position <? 0 then (Raise ValueError, with_file self h)
          else
            match read_line (content h) position with
            | Raise e =>
                (Raise e,
                 with_file self {| content := content h; pos := position |})
            | Ok line =>
                let used :=
                  (universal_line
                     (string_drop (Z.to_nat position) (content h))).2 in
                let h' :=
                  {| content := content h;
                     pos := position + Z.of_nat used |} in
                (decode self line, with_file self h')
            end
      end
  end.

(** The text the reads of [self] come from: that of the open file,
    or the one [path_to_index.open()] gives at the first read. *)
Definition file_text (self : t) : result string :=
  match dataset_file self with
  | Some h => Ok (content h)
  | None => path_open (path_to_index self)
  end.

(** Where a record's image is looked for. *)
Definition image_path_of (self : t) (image_ref : string) : string :=
  path_join (path_join (path_to_root self) (root_name self)) image_ref.

(** The record lines that give no sample: the line does not parse, or
    the image it names is not there, or is there and is not an
    image. *)
Inductive unusable (self : t) (line : string) : Prop :=
  | parse_failure :
      loads line = None -> unusable self line
  | image_missing (d : gmap string json) (p : string) :
      loads line = Some (JDict d) ->
      d !! "image" = Some (JStr p) ->
      path_exists (image_path_of self p) = false ->
      unusable self line
  | image_undecodable (d : gmap string json) (p : string) :
      loads line = Some (JDict d) ->
      d !! "image" = Some (JStr p) ->
      path_exists (image_path_of self p) = true ->
      Image_open (image_path_of self p) = Raise UnidentifiedImageError ->
      unusable self line.

(** What [__init__] leaves: the length is that of the seek map. *)
Definition well_formed (self : t) : Prop :=
  dataset_length self = Z.of_nat (length (seek_map self)).

End WithFiles.
End SciPDFDataset.

(** ** The random module

    The generator is a stream of raw draws and a cursor into it. *)

Record rng : Type := { draws : nat -> Z; cursor : nat }.

Definition next_raw (g : rng) : Z * rng :=
  (draws g (cursor g), {| draws := draws g; cursor := S (cursor g) |}).

(** [random.randint(a, b)]: an integer of [a..b], [ValueError] on an empty
    range (raised before anything is drawn). *)
Definition randint (a b : Z) (g : rng) : result Z * rng :=
  if b <? a then (Raise ValueError, g)
  else
    let '(raw, g') := next_raw g in
    (Ok (a + raw mod (b - a + 1)), g').

(** [random.random()]: a multiple [k / 2^53] of [2^-53] in [[0, 1)];
    the result is the numerator [k]. *)
Definition random (g : rng) : Z * rng :=
  let '(raw, g') := next_raw g in (raw mod 2 ^ 53, g').

(** [k / 2^53 < 0.1], the double [0.1] being [3602879701896397 / 2^55]. *)
Definition lt_tenth (k : Z) : bool := 4 * k <? 3602879701896397.

(** ** CustomDataset *)

Module CustomDataset.
Section WithFiles.

Context {pil : Type}.
(** [open(path).readlines()] and [open(path).read()]; [None] when
    either raises. *)
Variable readlines : string -> option (list string).
Variable read : string -> option string.
(** [Image.open]; [None] when it raises. *)
Variable Image_open : string -> option pil.
Variable os_path_join : string -> string -> string.

(** The returned [dict]: the keys [image], [ground_truth] and [meta],
    the latter holding [img_path] alone. *)
Record sample : Type := {
  image : pil;
  ground_truth : string;
  meta_img_path : string
}.

Record t : Type := {
  image_list_path : string;
  sentences_path : string;
  image_path : string;
  split : string;
  img_list : list string
}.

Definition init (image_list_path_ sentences_path_ image_path_ split_ : string)
    : result t :=
  match readlines image_list_path_ with
  | Some lines =>
      Ok {| image_list_path := image_list_path_;
            sentences_path := sentences_path_;
            image_path := image_path_;
            split := split_;
            img_list := lines |}
  | None => Raise (OtherException "load train_jsonl failed.")
  end.

Definition getitem (self : t) (idx : Z) : result (option sample) :=
  let meta_list :=
    if String.eqb (split self) "train" then img_list self else [""] in
  entry ← py_getitem meta_list idx;
  let pic_path_short := replace_char newline "" entry in
  let pic_path := os_path_join (image_path self) pic_path_short in
  match Image_open pic_path with
  | None => Ok None
  | Some img =>
      let txt_path_short :=
        String.append (replace_char "/"%char "_" pic_path_short) ".txt" in
      let txt_path := os_path_join (sentences_path self) txt_path_short in
      match read txt_path with
      | None => Ok None
      | Some sentence =>
          Ok (Some {| image := img; ground_truth := sentence;
                      meta_img_path := pic_path |})
      end
  end.

Definition len (self : t) : Z :=
  if String.eqb (split self) "train"
  then Z.of_nat (length (img_list self)) else 0.

(** [__iter__]: [self[i]] for [i] in [range(len(self))], up to the
    first one that raises. *)
Definition iter (self : t) : result (list (option sample)) :=
  mapM (fun i => getitem self (Z.of_nat i)) (seq 0 (Z.to_nat (len self))).

End WithFiles.
End CustomDataset.

(** ** NougatDataset *)

Module NougatDataset.
Section WithModel.

Context {pil : Type}.
Variable readlines : string -> option (list string).
Variable read : string -> option string.
Variable Image_open : string -> option pil.
Variable os_path_join : string -> string -> string.
(** [image.size], a [(width, height)] pair. *)
Variable image_size : pil -> Z * Z.
(** [nougat_model.encoder.prepare_input(image, random_padding=...)] *)
Variable prepare_input : pil -> bool -> option tensor.
(** The tokenizer called with [max_length], padding and truncation:
    [input_ids] and [attention_mask]. *)
Variable tokenizer : string -> Z -> list Z * list Z.
(** [len(nougat_model.decoder.tokenizer)] *)
Variable tokenizer_len : Z.

Abbreviation store := (@CustomDataset.t).
Abbreviation store_getitem :=
  (CustomDataset.getitem read Image_open os_path_join).

Record t : Type := {
  max_length : Z;
  split : string;
  perturb : bool;
  dataset : store;
  dataset_length : Z
}.

(** [NOUGAT_PERTURB in os.environ and os.environ[NOUGAT_PERTURB]],
    as a truth value. *)
Definition perturb_of_env (env : option string) : bool :=
  match env with
  | Some v => truthy v
  | None => false
  end.

Definition init (image_list_path sentences_path image_path : string)
    (max_length_ : Z) (split_ : string) (env : option string) : result t :=
  store_ ← CustomDataset.init readlines
             image_list_path sentences_path image_path split_;
  Ok {| max_length := max_length_; split := split_;
        perturb := perturb_of_env env; dataset := store_;
        dataset_length := CustomDataset.len store_ |}.

Definition len (self : t) : Z := dataset_length self.

(** The loop [while random.random() < 0.1].  [None]: the loop is still
    running after [rounds] rounds. *)
Fixpoint perturb_loop (rounds : nat) (unpadded_length : Z)
    (input_ids : list Z) (g : rng) : option (result (list Z) * rng) :=
  match rounds with
  | O => None
  | S rounds' =>
      let '(u, g) := random g in
      if lt_tenth u then
        match randint 1 (unpadded_length - 2) g with
        | (Raise ValueError, g) => Some (Ok input_ids, g)
        | (Raise e, g) => Some (Raise e, g)
        | (Ok pos_, g) =>
            match randint 23 (tokenizer_len - 1) g with
            | (Raise ValueError, g) => Some (Ok input_ids, g)
            | (Raise e, g) => Some (Raise e, g)
            | (Ok token, g) =>
                match py_setitem input_ids pos_ token with
                | Ok input_ids' =>
                    perturb_loop rounds' unpadded_length input_ids' g
                | Raise ValueError => Some (Ok input_ids, g)
                | Raise e => Some (Raise e, g)
                end
            end
        end
      else Some (Ok input_ids, g)
  end.

Definition triple : Type := option tensor * list Z * list Z.

(** [__getitem__] from the test on the image on, for a [sample]
    that is not [None]. *)
Definition convert (rounds : nat) (self : t)
    (sample : @CustomDataset.sample pil) (g : rng)
    : option (result triple * rng) :=
  let img := CustomDataset.image sample in
  let '(w, h) := image_size img in
  let input_tensor :=
    if w * h =? 0 then None
    else prepare_input img (String.eqb (split self) "train") in
  let '(input_ids, attention_mask) :=
    tokenizer (CustomDataset.ground_truth sample) (max_length self) in
  if String.eqb (split self) "train" && perturb self then
    let unpadded_length := foldr Z.add 0 attention_mask in
    match perturb_loop rounds unpadded_length input_ids g with
    | None => None
    | Some (Ok input_ids', g') =>
        Some (Ok (input_tensor, input_ids', attention_mask), g')
    | Some (Raise e, g') => Some (Raise e, g')
    end
  else Some (Ok (input_tensor, input_ids, attention_mask), g).

(** [depth] is the number of nested calls the interpreter still
    allows; beyond it Python raises [RecursionError]. *)
Fixpoint getitem (depth rounds : nat) (self : t) (idx : Z) (g : rng)
    : option (result triple * rng) :=
  match depth with
  | O => Some (Raise RecursionError, g)
  | S depth' =>
      match store_getitem (dataset self) idx with
      | Raise e => Some (Raise e, g)
      | Ok None =>
          match randint 0 (dataset_length self - 1) g with
          | (Raise e, g') => Some (Raise e, g')
          | (Ok idx', g') => getitem depth' rounds self idx' g'
          end
      | Ok (Some sample) => convert rounds self sample g
      end
  end.

End WithModel.
End NougatDataset.

(** ** Concrete objects used in the examples below *)

Module Fixtures.

Definition imgA : tensor := {| shape := [2; 2]%nat; data := [7; 1; 0; 5] |}.
Definition imgB : tensor := {| shape := [1; 3]%nat; data := [2; 9; 4] |}.

(** Pages are numbered; opening and preparing page [p] always works and
    gives a one-entry tensor holding [p]. *)
Definition open_page (p : Z) : result Z := Ok p.
Definition prepare_page (p : Z) : result (option tensor) :=
  Ok (Some {| shape := [1]%nat; data := [p] |}).

(** A five-page document, not yet read. *)
Definition five_pages : @LazyDataset.t Z :=
  LazyDataset.init "paper.pdf" 5 [10; 11; 12; 13; 14].

(** A record file of three lines, the second of which is not JSON,
    next to its seek map and two of the three images. *)
Definition quote : string := String (ascii_of_nat 34) "".
Definition nl : string := String newline "".

Definition record_text (image_ref markdown : string) : string :=
  String.concat ""
    ["{"; quote; "image"; quote; ":"; quote; image_ref; quote; ",";
     quote; "markdown"; quote; ":"; quote; markdown; quote; "}"; nl].

Definition line0 : string := record_text "p0.png" "first".
Definition line1 : string := String.append "{not json" nl.
Definition line2 : string := record_text "p2.png" "third".

Definition record_json (image_ref markdown : string) : json :=
  JDict (<["image" := JStr image_ref]>
           (<["markdown" := JStr markdown]> ∅)).

Definition loads (line : string) : option json :=
  if String.eqb line line0 then Some (record_json "p0.png" "first")
  else if String.eqb line line2 then Some (record_json "p2.png" "third")
  else None.

Definition path_join (a b : string) : string :=
  String.append a (String.append "/" b).
Definition path_exists (p : string) : bool :=
  String.eqb p "data/arxiv/p0.png" || String.eqb p "data/arxiv/p2.png".
Definition path_open (p : string) : result string :=
  if String.eqb p "data/train.jsonl"
  then Ok (String.concat "" [line0; line1; line2])
  else Raise (OtherException "FileNotFoundError").
(** An opened image is known by its path. *)
Definition open_image (p : string) : result string := Ok p.
(** The text layer has a chunk of 8192 bytes. *)
Definition read_ahead (text : string) (position : Z) : nat := Z.to_nat 8192.

Definition three_records : @SciPDFDataset.t :=
  {| SciPDFDataset.path_to_index := "data/train.jsonl";
     SciPDFDataset.root_name := "arxiv";
     SciPDFDataset.path_to_root := "data";
     SciPDFDataset.dataset_file := None;
     SciPDFDataset.seek_map :=
       [0; Z.of_nat (String.length line0);
        Z.of_nat (String.length line0 + String.length line1)];
     SciPDFDataset.dataset_length := 3 |}.

Definition read_record : @SciPDFDataset.t -> Z -> _ :=
  SciPDFDataset.getitem loads path_join path_exists path_open read_ahead
    open_image.

(** An image list of two entries.  Of the two images only the second
    can be opened, in [readable]; in [unreadable] none can. *)
Definition readlines (p : string) : option (list string) :=
  if String.eqb p "images.txt"
  then Some [String.append "a.png" nl; String.append "b/c.png" nl]
  else None.
Definition read_sentence (p : string) : option string :=
  if String.eqb p "sentences/b_c.png.txt" then Some "x squared" else None.
Definition open_second (p : string) : option string :=
  if String.eqb p "images/b/c.png" then Some p else None.
Definition open_nothing (p : string) : option string := None.
Definition image_size (p : string) : Z * Z := (640, 480).
Definition prepare_input (p : string) (random_padding : bool)
    : option tensor :=
  Some imgA.
Definition tokenizer (text : string) (max_length : Z) : list Z * list Z :=
  ([0; 31; 47; 2; 1; 1], [1; 1; 1; 1; 0; 0]).

(** A generator whose raw draws are all [d]. *)
Definition constant_rng (d : Z) : rng := {| draws := fun _ => d; cursor := 0 |}.

Definition nougat_init (split_ : string) : result (@NougatDataset.t) :=
  NougatDataset.init readlines "images.txt" "sentences" "images" 6 split_ None.

(** The dataset of the two entries, for the split [train], and the one
    for the split [validation]. *)
Definition train_set : @NougatDataset.t :=
  {| NougatDataset.max_length := 6; NougatDataset.split := "train";
     NougatDataset.perturb := false;
     NougatDataset.dataset :=
       {| CustomDataset.image_list_path := "images.txt";
          CustomDataset.sentences_path := "sentences";
          CustomDataset.image_path := "images";
          CustomDataset.split := "train";
          CustomDataset.img_list :=
            [String.append "a.png" nl; String.append "b/c.png" nl] |};
     NougatDataset.dataset_length := 2 |}.

Definition validation_set : @NougatDataset.t :=
  {| NougatDataset.max_length := 6; NougatDataset.split := "validation";
     NougatDataset.perturb := false;
     NougatDataset.dataset :=
       {| CustomDataset.image_list_path := "images.txt";
          CustomDataset.sentences_path := "sentences";
          CustomDataset.image_path := "images";
          CustomDataset.split := "validation";
          CustomDataset.img_list :=
            [String.append "a.png" nl; String.append "b/c.png" nl] |};
     NougatDataset.dataset_length := 0 |}.

Definition readable (depth : nat) :=
  NougatDataset.getitem read_sentence open_second path_join
    image_size prepare_input tokenizer 50000 depth 8.
Definition unreadable (depth : nat) :=
  NougatDataset.getitem read_sentence open_nothing path_join
    image_size prepare_input tokenizer 50000 depth 8.

End Fixtures.

(** ** ImageDataset.ignore_none_collate *)

Module ImageCollate.
Section WithDefaultCollate.

(** An item of the batch is [None] or a value [x]; [item0 x] is [x[0]],
    which may be [None] and may raise. *)
Context {X Y stacked : Type}.
Variable item0 : X -> result (option Y).
Variable default_collate : list X -> result stacked.

(** [[x for x in batch if x is not None and x[0] is not None]] *)
Fixpoint kept (batch : list (option X)) : result (list X) :=
  match batch with
  | [] => Ok []
  | None :: rest => kept rest
  | Some x :: rest =>
      first ← item0 x;
      rest' ← kept rest;
      Ok (if is_None first then rest' else x :: rest')
  end.

(** The returned [None] is the outer [None]. *)
Definition ignore_none_collate (batch : option (list (option X)))
    : result (option stacked) :=
  match batch with
  | None => Ok None
  | Some batch =>
      let body :=
        batch' ← kept batch;
        if (Z.of_nat (length batch') =? 0) then Ok None
        else (c ← default_collate batch'; Ok (Some c)) in
      match body with
      | Raise AttributeError => Ok None
      | r => r
      end
  end.

End WithDefaultCollate.
End ImageCollate.

(** ** SciPDFDataset.__iter__ *)

Module SciPDFIter.
Section WithFiles.

Context {pil : Type}.
Variable loads : string -> option json.
Variable path_join : string -> string -> string.
Variable path_exists : string -> bool.
Variable path_open : string -> result string.
Variable read_ahead : string -> Z -> nat.
Variable Image_open : string -> result pil.

Abbreviation getitem :=
  (SciPDFDataset.getitem loads path_join path_exists path_open read_ahead
     Image_open).

(** What a consumer of the generator sees: the items yielded, and the
    exception that ended the iteration if one did. *)
Fixpoint iter_over (self : @SciPDFDataset.t) (idxs : list Z)
    : (list (option (@SciPDFDataset.sample pil)) * option exn) * @SciPDFDataset.t :=
  match idxs with
  | [] => (([], None), self)
  | i :: idxs' =>
      match getitem self i with
      | (Raise e, self') => (([], Some e), self')
      | (Ok x, self') =>
          let '((xs, stop), self'') := iter_over self' idxs' in
          ((x :: xs, stop), self'')
      end
  end.

(** [range(n)] *)
Definition range (n : Z) : list Z := Z.of_nat <$> seq 0 (Z.to_nat n).

Definition iter (self : @SciPDFDataset.t) :=
  iter_over self (range (SciPDFDataset.dataset_length self)).

End WithFiles.
End SciPDFIter.

(** ** A data loader fetching a batch *)

Module Loader.
Section WithPrepare.

Context {raw pil : Type}.
Variable Image_open : raw -> result pil.
Variable prepare : pil -> result (option tensor).

(** [[dataset[i] for i in indices]] on one [LazyDataset], up to the
    first read that raises. *)
Fixpoint fetch (self : @LazyDataset.t raw) (indices : list Z)
    : result (list (option tensor * string)) :=
  match indices with
  | [] => Ok []
  | i :: indices' =>
      let '(r, self') := LazyDataset.getitem Image_open prepare self i in
      x ← r;
      xs ← fetch self' indices';
      Ok (x :: xs)
  end.

End WithPrepare.
End Loader.

(** ** More concrete objects *)

Module MoreFixtures.

(** The directory of the file of three records, as [pathlib] sees it. *)
Definition parent (p : string) : string := "data".
Definition stem (p : string) : string :=
  if String.eqb p "data/train.jsonl" then "train" else "validation".
Definition path_exists (p : string) : bool :=
  String.eqb p "data/train.seek.map" || Fixtures.path_exists p.
Definition format (template split : string) : string := split.
Definition load_seek_map (p : string) : result (list Z) :=
  if String.eqb p "data/train.seek.map" then Ok [0; 38; 48]
  else Raise (OtherException "FileNotFoundError").


(** The file of three records with its file open. *)
Definition three_records_open : @SciPDFDataset.t :=
  (Fixtures.read_record Fixtures.three_records 0).2.

(** A generator whose first three raw draws are 0 and whose later draws
    are [2^52]: one perturbation, then the loop stops. *)
Definition one_perturbation : rng :=
  {| draws := fun n => if (n <? 3)%nat then 0 else 2 ^ 52; cursor := 0 |}.

(** An image without area. *)
Definition flat_size (p : string) : Z * Z := (0, 480).

Definition flat (depth : nat) :=
  NougatDataset.getitem Fixtures.read_sentence Fixtures.open_second
    Fixtures.path_join flat_size Fixtures.prepare_input Fixtures.tokenizer
    50000 depth 8.

End MoreFixtures.

(** * Properties *)

(** ** Python indexing *)

Lemma py_getitem_nonneg {A} (l : list A) (i : Z) :
  0 <= i < Z.of_nat (length l) ->
  exists x, l !! Z.to_nat i = Some x /\ py_getitem l i = Ok x.
Proof.
  intros Hi. unfold py_getitem.
  destruct (Z.ltb_spec i 0) as [Hneg|_]; [lia|].
  destruct (Z.leb_spec 0 i) as [_|Hneg]; [|lia].
  destruct (Z.ltb_spec i (Z.of_nat (length l))) as [_|Hge]; [|lia].
  simpl. destruct (lookup_lt_is_Some_2 l (Z.to_nat i)) as [x Hx]; [lia|].
  exists x. by rewrite Hx.
Qed.

Lemma py_getitem_out_of_range {A} (l : list A) (i : Z) :
  i < - Z.of_nat (length l) \/ Z.of_nat (length l) <= i ->
  py_getitem l i = Raise IndexError.
Proof.
  intros Hi. unfold py_getitem.
  destruct (Z.ltb_spec i 0) as [Hneg|Hpos].
  - destruct (Z.leb_spec 0 (i + Z.of_nat (length l))) as [Hle|_]; [lia|done].
  - destruct (Z.ltb_spec i (Z.of_nat (length l))) as [Hlt|_]; [lia|].
    by rewrite andb_false_r.
Qed.

Lemma py_getitem_negative {A} (l : list A) (i : Z) :
  - Z.of_nat (length l) <= i < 0 ->
  py_getitem l i = py_getitem l (i + Z.of_nat (length l)).
Proof.
  intros Hi. unfold py_getitem.
  destruct (Z.ltb_spec i 0) as [_|Hpos]; [|lia].
  destruct (Z.ltb_spec (i + Z.of_nat (length l)) 0) as [Hneg|_]; [lia|].
  done.
Qed.

Lemma py_getitem_last {A} (l : list A) (x : A) :
  py_getitem (l ++ [x]) (-1) = Ok x.
Proof.
  unfold py_getitem. rewrite length_app. simpl.
  replace (-1 + Z.of_nat (length l + 1)) with (Z.of_nat (length l)) by lia.
  destruct (Z.leb_spec 0 (Z.of_nat (length l))) as [_|Hneg]; [|lia].
  destruct (Z.ltb_spec (Z.of_nat (length l)) (Z.of_nat (length l + 1)))
    as [_|Hge]; [|lia].
  simpl. rewrite Nat2Z.id.
  by rewrite lookup_app_r, Nat.sub_diag by lia.
Qed.

Lemma py_setitem_last {A} (l : list A) (x y : A) :
  py_setitem (l ++ [x]) (-1) y = Ok (l ++ [y]).
Proof.
  unfold py_setitem. rewrite length_app. simpl.
  replace (-1 + Z.of_nat (length l + 1)) with (Z.of_nat (length l)) by lia.
  destruct (Z.leb_spec 0 (Z.of_nat (length l))) as [_|Hneg]; [|lia].
  destruct (Z.ltb_spec (Z.of_nat (length l)) (Z.of_nat (length l + 1)))
    as [_|Hge]; [|lia].
  simpl. rewrite Nat2Z.id.
  by rewrite insert_app_r_alt, Nat.sub_diag by lia.
Qed.

Lemma py_getitem_nil {A} (i : Z) : py_getitem (@nil A) i = Raise IndexError.
Proof. apply py_getitem_out_of_range. simpl. lia. Qed.

Lemma tensor_mul_zero (t : tensor) : tensor_mul t 0 = zeros_like t.
Proof.
  unfold tensor_mul, zeros_like. f_equal.
  induction (data t) as [|x xs IH]; [done|].
  rewrite fmap_cons, IH, Z.mul_0_r. done.
Qed.

(** ** Batch assembly: LazyDataset.ignore_none_collate *)

Section CollateProperties.
Import Collate.

Lemma rbind_Ok {A B} (r : result A) (k : A -> result B) (b : B) :
  r ≫= k = Ok b -> exists a, r = Ok a /\ k a = Ok b.
Proof. destruct r as [a|e]; [eauto|discriminate]. Qed.

(** Running the loop over [l1 ++ l2] is running it over [l1], then over
    [l2] from the index and the list reached. *)
Lemma collate_loop_app batch l1 : forall l2 i acc,
  collate_loop batch i (l1 ++ l2) acc =
  collate_loop batch i l1 acc ≫= collate_loop batch (i + length l1) l2.
Proof.
  induction l1 as [|x l1 IH]; intros l2 i acc; simpl.
  - by rewrite Nat.add_0_r.
  - destruct (collate_step batch i x acc) as [acc'|e]; simpl; [|done].
    rewrite IH. by replace (S i + length l1)%nat with (i + S (length l1))%nat by lia.
Qed.

Lemma collate_loop_split batch pre x post acc :
  collate_loop batch 0 (pre ++ x :: post) acc =
  collate_loop batch 0 (pre ++ [x]) acc ≫=
    collate_loop batch (S (length pre)) post.
Proof.
  replace (pre ++ x :: post) with ((pre ++ [x]) ++ post)
    by (by rewrite <- app_assoc).
  rewrite collate_loop_app, length_app. simpl.
  by replace (length pre + 1)%nat with (S (length pre)) by lia.
Qed.

(** A round adds at most one slot. *)
Lemma collate_step_length batch i x acc acc' :
  collate_step batch i x acc = Ok acc' ->
  (length acc <= length acc' <= S (length acc))%nat.
Proof.
  destruct x as [[img|] name]; simpl.
  - intros [= <-]. rewrite length_app. simpl. lia.
  - destruct (truthy name); [|intros [= <-]; lia].
    destruct (0 <? Z.of_nat i).
    + intros H. apply rbind_Ok in H as (last & _ & H).
      unfold py_setitem in H.
      destruct (_ && _); [|discriminate].
      injection H as <-. rewrite length_insert. lia.
    + destruct (1 <? Z.of_nat (length batch)); [|intros [= <-]; lia].
      intros H. apply rbind_Ok in H as (b1 & _ & H).
      apply rbind_Ok in H as (zero & _ & H).
      injection H as <-. rewrite length_app. simpl. lia.
Qed.

Lemma collate_loop_length batch l : forall i acc acc',
  collate_loop batch i l acc = Ok acc' ->
  (length acc' <= length acc + length l)%nat.
Proof.
  induction l as [|x l IH]; intros i acc acc'; simpl.
  - intros [= <-]. lia.
  - intros H. apply rbind_Ok in H as (acc1 & Hstep & Hrest).
    apply collate_step_length in Hstep. apply IH in Hrest. lia.
Qed.

(** The round of a name-bearing item when [_batch] is not empty. *)
Lemma collate_step_attach batch i name front img old :
  truthy name = true -> (0 < i)%nat ->
  collate_step batch i (None, name) (front ++ [(img, old)]) =
  Ok (front ++ [(img, name)]).
Proof.
  intros Hname Hi. simpl. rewrite Hname.
  destruct (Z.ltb_spec 0 (Z.of_nat i)) as [_|Hle]; [|lia].
  rewrite py_getitem_last. simpl. apply py_setitem_last.
Qed.

(** C1. A name-bearing item (no image, a non-empty name) met when the
    filtered list [_batch] is not empty hands its name to the last
    element of [_batch], whose image stays and whose name is replaced;
    [_batch] keeps its length, and the loop goes on from there.  So
    [[(imgA, ""), (None, "doc1"), (imgB, "")]] is filtered to
    [[(imgA, "doc1"), (imgB, "")]], which is what is collated. *)
Theorem name_attaches_to_last_filtered
    (pre post : list item) (name : string) (acc : list slot) :
  truthy name = true ->
  collate_loop (pre ++ (None, name) :: post) 0 pre [] = Ok acc ->
  acc <> [] ->
  (exists front img old,
      acc = front ++ [(img, old)] /\
      collate_loop (pre ++ (None, name) :: post) 0
        (pre ++ [(None, name)]) [] = Ok (front ++ [(img, name)]) /\
      length (front ++ [(img, name)]) = length acc /\
      filtered (pre ++ (None, name) :: post) =
      collate_loop (pre ++ (None, name) :: post) (S (length pre)) post
        (front ++ [(img, name)])) /\
  (forall imgA imgB : tensor,
      filtered [(Some imgA, ""); (None, "doc1"); (Some imgB, "")] =
      Ok [(imgA, "doc1"); (imgB, "")] /\
      forall (stacked : Type) (default_collate : list slot -> result stacked),
        ignore_none_collate default_collate
          (Some [(Some imgA, ""); (None, "doc1"); (Some imgB, "")]) =
        match default_collate [(imgA, "doc1"); (imgB, "")] with
        | Ok c => Ok (Some c)
        | Raise AttributeError => Ok None
        | Raise e => Raise e
        end).
Proof.
  intros Hname Hpre Hacc. split.
  - destruct (exists_last Hacc) as (front & [img old] & ->).
    exists front, img, old. split; [done|].
    assert (Hlen : (0 < length pre)%nat).
    { apply collate_loop_length in Hpre. rewrite length_app in Hpre.
      simpl in Hpre. lia. }
    assert (Hone : collate_loop (pre ++ (None, name) :: post) 0
                     (pre ++ [(None, name)]) [] = Ok (front ++ [(img, name)])).
    { rewrite collate_loop_app, Hpre.
      cbn [mbind result_bind rbind collate_loop].
      rewrite collate_step_attach by (done || lia). done. }
    split; [done|]. split; [by rewrite !length_app|].
    unfold filtered.
    by rewrite (collate_loop_split _ pre (None, name) post), Hone.
  - intros imgA imgB. split; [reflexivity|].
    intros stacked default_collate. unfold ignore_none_collate.
    change (filtered [(Some imgA, ""); (None, "doc1"); (Some imgB, "")])
      with (Ok [(imgA, "doc1"); (imgB, "")] : result (list slot)).
    simpl. destruct (default_collate _) as [c|[]]; reflexivity.
Qed.

Lemma name_attaches_to_last_filtered_witness :
  truthy "doc1" = true /\
  collate_loop
    ([(Some Fixtures.imgA, "")] ++ (None, "doc1") :: [(Some Fixtures.imgB, "")])
    0 [(Some Fixtures.imgA, "")] [] = Ok [(Fixtures.imgA, "")] /\
  exists front img old,
    [(Fixtures.imgA, "")] = front ++ [(img, old)] /\
    filtered
      ([(Some Fixtures.imgA, "")] ++ (None, "doc1") :: [(Some Fixtures.imgB, "")]) =
    collate_loop
      ([(Some Fixtures.imgA, "")] ++ (None, "doc1") :: [(Some Fixtures.imgB, "")])
      2 [(Some Fixtures.imgB, "")] (front ++ [(img, "doc1")]).
Proof.
  split; [reflexivity|]. split; [reflexivity|].
  destruct (name_attaches_to_last_filtered
              [(Some Fixtures.imgA, "")] [(Some Fixtures.imgB, "")] "doc1"
              [(Fixtures.imgA, "")]) as [H _];
    [reflexivity | reflexivity | discriminate |].
  destruct H as (front & img & old & H1 & _ & _ & H4).
  exists front, img, old. split; assumption.
Defined.

(** The placeholder is built when the name-bearing item is the first of
    the batch and the second item has an image: the second item's image
    times zero, with the name, goes first. *)
Lemma placeholder_from_second_item name img1 name1 rest :
  truthy name = true ->
  collate_loop ((None, name) :: (Some img1, name1) :: rest) 0
    [(None, name)] [] = Ok [(zeros_like img1, name)].
Proof.
  intros Hname. cbn [collate_loop collate_step]. rewrite Hname.
  change (0 <? Z.of_nat 0) with false. cbv iota.
  destruct (Z.ltb_spec 1 (Z.of_nat (length ((None, name) :: (Some img1, name1) :: rest))))
    as [_|Hle]; [|simpl in Hle; lia].
  destruct (py_getitem_nonneg ((None, name) :: (Some img1, name1) :: rest) 1)
    as (b1 & Hb1 & ->); [simpl; lia|].
  injection Hb1 as <-. simpl. by rewrite <- tensor_mul_zero.
Qed.

Lemma placeholder_example imgB :
  filtered [(None, "doc1"); (Some imgB, "")] =
  Ok [(zeros_like imgB, "doc1"); (imgB, "")].
Proof. by rewrite <- tensor_mul_zero. Qed.

(** C2. A name-bearing item that is not the first of the batch and has
    no filtered item before it makes the loop read [_batch[-1]] of an
    empty list: the call raises [IndexError] where a placeholder was to
    be appended.  When it is the first item and the second item has no
    image either, [None * 0] raises [TypeError]. *)
Theorem no_placeholder_after_unusable_items (imgB : tensor) :
  filtered [(None, ""); (None, "doc1"); (Some imgB, "")] = Raise IndexError /\
  filtered [(None, "doc1"); (None, ""); (Some imgB, "")] = Raise TypeError /\
  forall (stacked : Type) (default_collate : list slot -> result stacked),
    ignore_none_collate default_collate
      (Some [(None, ""); (None, "doc1"); (Some imgB, "")]) = Raise IndexError /\
    ignore_none_collate default_collate
      (Some [(None, "doc1"); (None, ""); (Some imgB, "")]) = Raise TypeError.
Proof. repeat split. Qed.

(** A batch without any image and without any name gives the signal. *)
Lemma collate_loop_nameless batch l : forall i acc,
  Forall (fun x : item => x.1 = None /\ x.2 = "") l ->
  collate_loop batch i l acc = Ok acc.
Proof.
  induction l as [|[image name] l IH]; intros i acc Hall; [done|].
  apply Forall_cons in Hall as [[Himg Hname] Hall]. simpl in Himg, Hname.
  subst. simpl. by apply IH.
Qed.

Lemma nameless_batch_gives_signal {stacked : Type}
    (default_collate : list slot -> result stacked) (batch : list item) :
  Forall (fun x : item => x.1 = None /\ x.2 = "") batch ->
  ignore_none_collate default_collate (Some batch) = Ok None.
Proof.
  intros Hall. unfold ignore_none_collate, filtered.
  by rewrite collate_loop_nameless.
Qed.

(** C9. A batch whose items all lack an image, the second of which
    carries a name, does not give the empty-batch signal: the loop
    reads [_batch[-1]] of an empty list and [IndexError] leaves the
    call, only [AttributeError] being caught.  With the name on the
    first item, [None * 0] raises [TypeError]. *)
Theorem all_unusable_batch_raises :
  filtered [(None, ""); (None, "doc1")] = Raise IndexError /\
  filtered [(None, "doc1"); (None, "")] = Raise TypeError /\
  forall (stacked : Type) (default_collate : list slot -> result stacked),
    ignore_none_collate default_collate
      (Some [(None, ""); (None, "doc1")]) = Raise IndexError /\
    ignore_none_collate default_collate
      (Some [(None, "doc1"); (None, "")]) = Raise TypeError.
Proof. repeat split. Qed.

End CollateProperties.

(** ** Lazy page access: LazyDataset.__getitem__ *)

Section LazyProperties.
Import LazyDataset.

Context {raw pil : Type}.
Variable Image_open : raw -> result pil.
Variable prepare : pil -> result (option tensor).

Abbreviation get := (getitem Image_open prepare).
Abbreviation run := (access Image_open prepare).

Lemma getitem_state (self : @t raw) (i : Z) :
  (get self i).2 =
  if (i =? 0) || is_None (dataset self) then materialize self else self.
Proof.
  unfold getitem.
  destruct ((i =? 0) || is_None (dataset self));
    destruct (_ && _); try done; by destruct (dataset _).
Qed.

Lemma getitem_materialized (self : @t raw) (i : Z) :
  materialized (get self i).2 \/
  (materialized self -> materialized (get self i).2).
Proof.
  rewrite getitem_state.
  destruct ((i =? 0) || is_None (dataset self)); [by left|by right].
Qed.

Lemma getitem_keeps (self : @t raw) (i : Z) :
  name (get self i).2 = name self /\
  size (get self i).2 = size self /\
  pages_of_pdf (get self i).2 = pages_of_pdf self.
Proof.
  rewrite getitem_state.
  by destruct ((i =? 0) || is_None (dataset self)).
Qed.

(** With the page set there, a read is a rasterization exactly when it
    is a read of index 0. *)
Lemma getitem_rasterizations (self : @t raw) (i : Z) :
  materialized self ->
  materialized (get self i).2 /\
  rasterizations (get self i).2 =
  (rasterizations self + if (i =? 0)%Z then 1 else 0)%nat.
Proof.
  intros Hm. rewrite getitem_state. unfold materialized in Hm.
  rewrite Hm. simpl. rewrite orb_false_r.
  destruct (i =? 0); simpl.
  - split; [done|lia].
  - split; [done|lia].
Qed.

Lemma access_rasterizations (idxs : list Z) : forall self : @t raw,
  materialized self ->
  materialized (run self idxs) /\
  rasterizations (run self idxs) =
  (rasterizations self + count_occ Z.eq_dec idxs 0%Z)%nat.
Proof.
  induction idxs as [|i idxs IH]; intros self Hm; simpl.
  - split; [done|lia].
  - destruct (getitem_rasterizations self i Hm) as [Hm' Hr].
    destruct (IH _ Hm') as [Hm'' Hr'].
    split; [done|]. rewrite Hr', Hr.
    destruct (Z.eq_dec i 0) as [->|Hne]; simpl.
    + lia.
    + destruct (Z.eqb_spec i 0); [done|lia].
Qed.

(** C3, as the code has it.  On a new object the first read rasterizes
    the document, whatever its index, and so does every later read of
    index 0; no other read does.  After the reads [i :: idxs] the
    rasterizer has run once and once more for each 0 in [idxs], and the
    page set in use is the one it returned. *)
Theorem rasterized_on_first_read_and_on_index_zero
    (pdf_name : string) (page_count : nat) (pages : list raw)
    (i : Z) (idxs : list Z) :
  rasterizations (run (init pdf_name page_count pages) (i :: idxs)) =
    S (count_occ Z.eq_dec idxs 0) /\
  dataset (run (init pdf_name page_count pages) (i :: idxs)) =
    Some {| ImageDataset.img_list := pages |} /\
  forall j : Z,
    rasterizations (run (init pdf_name page_count pages) (i :: idxs ++ [j])) =
    (rasterizations (run (init pdf_name page_count pages) (i :: idxs)) +
     if (j =? 0)%Z then 1 else 0)%nat.
Proof.
  set (self := init pdf_name page_count pages).
  assert (Hfirst : materialized (get self i).2 /\
                   rasterizations (get self i).2 = 1%nat /\
                   pages_of_pdf (get self i).2 = pages).
  { rewrite getitem_state. simpl. by rewrite orb_true_r. }
  destruct Hfirst as (Hm & Hr & Hp).
  assert (Hpages : forall l, pages_of_pdf (run (get self i).2 l) = pages).
  { intros l. revert Hp. generalize (get self i).2.
    induction l as [|k l IH]; intros s Hs; simpl; [done|].
    apply IH. by rewrite (proj2 (proj2 (getitem_keeps s k))). }
  destruct (access_rasterizations idxs _ Hm) as [Hm' Hcount].
  split; [|split].
  - simpl. rewrite Hcount, Hr. done.
  - simpl. unfold materialized in Hm'. by rewrite Hm', Hpages.
  - intros j.
    destruct (access_rasterizations (idxs ++ [j]) _ Hm) as [_ Hcount'].
    simpl. rewrite Hcount', Hcount, count_occ_app. simpl.
    destruct (Z.eq_dec j 0) as [->|Hne]; simpl; [lia|].
    destruct (Z.eqb_spec j 0); [done|lia].
Qed.

Lemma getitem_dataset_Some (self : @t raw) (i : Z) :
  exists d, dataset (get self i).2 = Some d /\
    ((i =? 0) || is_None (dataset self) = true ->
     d = {| ImageDataset.img_list := pages_of_pdf self |}).
Proof.
  rewrite getitem_state.
  destruct (i =? 0); simpl; [by eexists|].
  destruct (dataset self) as [d|] eqn:Hd; simpl; [|by eexists].
  exists d. split; [done|discriminate].
Qed.

(** What a read returns when its index passes the test
    [i <= self.size and i >= 0]. *)
Lemma getitem_passes (self : @t raw) (i : Z) :
  0 <= i <= len self ->
  exists d, dataset (get self i).2 = Some d /\
    (get self i).1 =
    Ok (ImageDataset.getitem Image_open prepare d i,
        if i =? len self - 1 then name self else "").
Proof.
  intros Hi. destruct (getitem_dataset_Some self i) as (d & Hd & _).
  exists d. split; [done|].
  rewrite getitem_state in Hd. unfold getitem, len in *.
  destruct ((i =? 0) || is_None (dataset self)); simpl in *.
  - destruct (Z.leb_spec i (Z.of_nat (size self))); [|lia].
    destruct (Z.geb_spec i 0); [|lia]. simpl. by injection Hd as <-.
  - destruct (Z.leb_spec i (Z.of_nat (size self))); [|lia].
    destruct (Z.geb_spec i 0); [|lia]. simpl. by rewrite Hd.
Qed.

(** C5. A read of an index within [0 <= i < len] returns a pair, and
    the second component is the document's name at the last index,
    [len - 1], and the empty string at every other one.  The name being
    non-empty, it is non-empty exactly at the last index. *)
Theorem name_only_on_last_page (self : @t raw) (i : Z) :
  0 <= i < len self ->
  name self <> "" ->
  exists page nm,
    (get self i).1 = Ok (page, nm) /\
    nm = (if i =? len self - 1 then name self else "") /\
    (nm <> "" <-> i = len self - 1).
Proof.
  intros Hi Hname.
  destruct (getitem_passes self i) as (d & _ & Hget); [lia|].
  eexists _, _. split; [exact Hget|]. split; [done|].
  destruct (Z.eqb_spec i (len self - 1)); split; done.
Qed.

(** C4. The test of [__getitem__] is [i <= self.size], so the index
    [len] passes it: the read returns a pair with the empty name, and
    does not raise.  On a new object whose rasterizer gives as many
    pages as the document has, that pair is [(None, "")]: the page
    list has no such page and [ImageDataset] swallows the error. *)
Theorem getitem_at_length_returns :
  (forall self : @t raw,
      exists page, (get self (len self)).1 = Ok (page, "")) /\
  (forall (pdf_name : string) (pages : list raw),
      (get (init pdf_name (length pages) pages)
           (len (init pdf_name (length pages) pages))).1 = Ok (None, "")).
Proof.
  split.
  - intros self. destruct (getitem_passes self (len self)) as (d & _ & Hget).
    { unfold len. lia. }
    exists (ImageDataset.getitem Image_open prepare d (len self)).
    rewrite Hget. destruct (Z.eqb_spec (len self) (len self - 1)); [lia|done].
  - intros pdf_name pages. set (self := init pdf_name (length pages) pages).
    destruct (getitem_passes self (len self)) as (d & Hd & Hget).
    { unfold len. lia. }
    destruct (getitem_dataset_Some self (len self)) as (d' & Hd' & Heq).
    rewrite Hd in Hd'. injection Hd' as <-.
    rewrite Heq in Hget by (simpl; apply orb_true_r).
    rewrite Hget. destruct (Z.eqb_spec (len self) (len self - 1)); [lia|].
    unfold ImageDataset.getitem. simpl.
    rewrite py_getitem_out_of_range; [done|]. unfold len. simpl. lia.
Qed.

End LazyProperties.

(** C3, as stated, fails: two reads of page 0 of a five-page document
    rasterize it twice, and so do a read of page 3 and then of page 0. *)
Lemma rasterized_twice :
  let reads idxs :=
    LazyDataset.rasterizations
      (LazyDataset.access Fixtures.open_page Fixtures.prepare_page
         Fixtures.five_pages idxs) in
  let len := LazyDataset.len Fixtures.five_pages in
  Forall (fun i => 0 <= i < len) [0; 3] /\
  reads [0; 0] = 2%nat /\ reads [3; 0] = 2%nat /\
  ~ (forall idxs,
        idxs <> [] ->
        Forall (fun i => 0 <= i < len) idxs ->
        reads idxs = 1%nat).
Proof.
  assert (Hin : forall i, 0 <= i < 5 ->
                 0 <= i < LazyDataset.len Fixtures.five_pages).
  { intros i Hi. exact Hi. }
  cbv zeta. split; [|split; [reflexivity|split; [reflexivity|]]].
  - repeat constructor; apply Hin; lia.
  - intros H. specialize (H [0; 0]).
    assert (2 = 1)%nat as Habs; [|discriminate].
    apply H; [discriminate|].
    repeat constructor; apply Hin; lia.
Qed.

Lemma name_only_on_last_page_witness :
  0 <= 4 < LazyDataset.len Fixtures.five_pages /\
  LazyDataset.name Fixtures.five_pages <> "" /\
  exists page nm,
    (LazyDataset.getitem Fixtures.open_page Fixtures.prepare_page
       Fixtures.five_pages 4).1 = Ok (page, nm) /\
    nm = "paper.pdf".
Proof.
  assert (Hi : 0 <= 4 < LazyDataset.len Fixtures.five_pages)
    by (unfold LazyDataset.len; simpl; lia).
  assert (Hname : LazyDataset.name Fixtures.five_pages <> "") by discriminate.
  split; [exact Hi|]. split; [exact Hname|].
  destruct (name_only_on_last_page Fixtures.open_page Fixtures.prepare_page
              Fixtures.five_pages 4 Hi Hname) as (page & nm & Hget & Hnm & _).
  exists page, nm. split; [exact Hget|exact Hnm].
Defined.

(** Reading index 5 of the five-page document gives [(None, "")]. *)
Example five_pages_read_at_length :
  (LazyDataset.getitem Fixtures.open_page Fixtures.prepare_page
     Fixtures.five_pages 5).1 = Ok (None, "").
Proof. reflexivity. Qed.

(** The names along the five pages. *)
Example five_pages_names :
  (fun i => (LazyDataset.getitem Fixtures.open_page Fixtures.prepare_page
               Fixtures.five_pages i).1) <$> [0; 1; 2; 3; 4] =
  [Ok (Some {| shape := [1%nat]; data := [10] |}, "");
   Ok (Some {| shape := [1%nat]; data := [11] |}, "");
   Ok (Some {| shape := [1%nat]; data := [12] |}, "");
   Ok (Some {| shape := [1%nat]; data := [13] |}, "");
   Ok (Some {| shape := [1%nat]; data := [14] |}, "paper.pdf")].
Proof. reflexivity. Qed.

(** ** Reading a line of a text file *)

Lemma string_app_cons (c : ascii) (a b : string) :
  String c a +:+ b = String c (a +:+ b).
Proof. reflexivity. Qed.
















(** ** Indexed record access: SciPDFDataset.__getitem__ *)

Section SciPDFProperties.
Import SciPDFDataset.

Context {pil : Type}.
Variable loads : string -> option json.
Variable path_join : string -> string -> string.
Variable parent : string -> string.
Variable stem : string -> string.
Variable path_exists : string -> bool.
Variable path_open : string -> result string.
Variable read_ahead : string -> Z -> nat.
Variable format : string -> string -> string.
Variable load_seek_map : string -> result (list Z).
Variable Image_open : string -> result pil.

Abbreviation sci_get :=
  (getitem loads path_join path_exists path_open read_ahead Image_open).
Abbreviation sci_read := (read_line read_ahead).
Abbreviation sci_decode := (decode loads path_join path_exists Image_open).
Abbreviation sci_text := (file_text path_open).
Abbreviation sci_unusable :=
  (unusable loads path_join path_exists Image_open).

Lemma init_well_formed path_to_index_ split root_name_ template self :
  init path_join parent stem path_exists format load_seek_map
    path_to_index_ split root_name_ template = Ok self ->
  well_formed self /\ dataset_file self = None /\
  len self = Z.of_nat (length (seek_map self)).
Proof.
  unfold init. intros H.
  apply rbind_Ok in H as (pti & _ & H).
  destruct (path_exists _); [|discriminate].
  apply rbind_Ok in H as (seek_map_ & _ & H).
  injection H as <-. unfold well_formed, len. simpl. done.
Qed.

(** The result of a read is decided by the seek map, by the text of the
    file and by where the images are looked for. *)
Lemma getitem_result (self : @t) (index : Z) :
  (sci_get self index).1 =
  position ← py_getitem (seek_map self) index;
  text ← sci_text self;
  if position <? 0 then Raise ValueError
  else (line ← sci_read text position; sci_decode self line).
Proof.
  unfold getitem, file_text.
  destruct (py_getitem (seek_map self) index) as [position|e]; [|done].
  destruct (dataset_file self) as [h|]; simpl.
  - destruct (position <? 0); [done|].
    by destruct (sci_read (content h) position).
  - destruct (path_open (path_to_index self)) as [text|e]; [|done].
    simpl. destruct (position <? 0); [done|].
    by destruct (sci_read text position).
Qed.

(** A read leaves the seek map, the text and the paths as they were. *)
Lemma getitem_preserves (self : @t) (index : Z) :
  seek_map (sci_get self index).2 = seek_map self /\
  sci_text (sci_get self index).2 = sci_text self /\
  path_to_root (sci_get self index).2 = path_to_root self /\
  root_name (sci_get self index).2 = root_name self /\
  dataset_length (sci_get self index).2 = dataset_length self.
Proof.
  unfold getitem, file_text.
  destruct (py_getitem (seek_map self) index) as [position|e]; [|done].
  destruct (dataset_file self) as [h|] eqn:Hfile; simpl.
  - destruct (position <? 0); [done|].
    by destruct (sci_read (content h) position).
  - destruct (path_open (path_to_index self)) as [text|e] eqn:Hopen; simpl.
    + destruct (position <? 0); [done|].
      by destruct (sci_read text position).
    + by rewrite Hfile, Hopen.
Qed.

Lemma decode_depends (self self' : @t) (line : string) :
  path_to_root self' = path_to_root self ->
  root_name self' = root_name self ->
  sci_decode self' line = sci_decode self line.
Proof. intros H1 H2. unfold decode. by rewrite H1, H2. Qed.

(** A read does not change what any later read returns. *)
Lemma getitem_isolated (self : @t) (i j : Z) :
  (sci_get (sci_get self i).2 j).1 = (sci_get self j).1.
Proof.
  rewrite !getitem_result.
  destruct (getitem_preserves self i) as (-> & -> & Hroot & Hname & _).
  destruct (py_getitem (seek_map self) j) as [position|e]; [|done].
  destruct (sci_text self) as [text|e]; [|done]. simpl.
  destruct (position <? 0); [done|].
  destruct (sci_read text position) as [line|e]; [|done].
  by apply decode_depends.
Qed.

Lemma decode_unusable (self : @t) (line : string) :
  sci_unusable self line -> sci_decode self line = Ok empty_sample.
Proof.
  unfold decode, image_path_of.
  intros [Hparse | d p Hparse Himage Hmissing | d p Hparse Himage _ Hopen].
  - by rewrite Hparse.
  - rewrite Hparse. simpl. rewrite Himage. simpl.
    unfold image_path_of in Hmissing. by rewrite Hmissing.
  - rewrite Hparse. simpl. rewrite Himage. simpl.
    unfold image_path_of in Hopen. rewrite Hopen.
    by destruct (path_exists _).
Qed.



(** C7, as the code has it.  The index is looked up in the seek map as
    Python looks up a list: [IndexError] is raised for [index >= len]
    and for [index < -len], before any file is touched; an index of
    [-len <= index < 0] reads the record [index + len]. *)
Theorem getitem_index_range (self : @t) (index : Z) :
  well_formed self ->
  (index < - len self \/ len self <= index ->
   sci_get self index = (Raise IndexError, self)) /\
  (- len self <= index < 0 ->
   sci_get self index = sci_get self (index + len self)).
Proof.
  intros Hwf. unfold well_formed, len in *. rewrite Hwf. split.
  - intros Hout. unfold getitem.
    by rewrite py_getitem_out_of_range.
  - intros Hneg. unfold getitem.
    by rewrite py_getitem_negative.
Qed.

End SciPDFProperties.



(** The file of three records read at each of its indices: the line that
    is not JSON gives the sentinel, its neighbours their records. *)
Example three_records_reads :
  (fun i => (Fixtures.read_record Fixtures.three_records i).1) <$> [0; 1; 2] =
  [Ok (Some {| SciPDFDataset.image := "data/arxiv/p0.png";
               SciPDFDataset.ground_truth := JStr "first";
               SciPDFDataset.meta := ∅ |});
   Ok None;
   Ok (Some {| SciPDFDataset.image := "data/arxiv/p2.png";
               SciPDFDataset.ground_truth := JStr "third";
               SciPDFDataset.meta := ∅ |})].
Proof. reflexivity. Qed.

(** C7, as stated, fails: index -1 of the file of three records is
    outside [0 <= index < 3] and the read returns the last record. *)
Lemma negative_index_reads_from_the_end :
  SciPDFDataset.len Fixtures.three_records = 3 /\
  (Fixtures.read_record Fixtures.three_records (-1)).1 =
    Ok (Some {| SciPDFDataset.image := "data/arxiv/p2.png";
                SciPDFDataset.ground_truth := JStr "third";
                SciPDFDataset.meta := ∅ |}) /\
  (Fixtures.read_record Fixtures.three_records (-1)).1 <> Raise IndexError.
Proof. split; [reflexivity|]. split; [reflexivity|discriminate]. Qed.

Lemma getitem_index_range_witness :
  SciPDFDataset.well_formed Fixtures.three_records /\
  Fixtures.read_record Fixtures.three_records 3 =
    (Raise IndexError, Fixtures.three_records) /\
  Fixtures.read_record Fixtures.three_records (-4) =
    (Raise IndexError, Fixtures.three_records) /\
  Fixtures.read_record Fixtures.three_records (-1) =
    Fixtures.read_record Fixtures.three_records 2.
Proof.
  assert (Hwf : SciPDFDataset.well_formed Fixtures.three_records) by reflexivity.
  split; [exact Hwf|]. split; [|split].
  - apply (proj1 (getitem_index_range
             Fixtures.loads Fixtures.path_join Fixtures.path_exists
             Fixtures.path_open Fixtures.read_ahead Fixtures.open_image
             Fixtures.three_records 3 Hwf)).
    right. unfold SciPDFDataset.len. simpl. lia.
  - apply (proj1 (getitem_index_range
             Fixtures.loads Fixtures.path_join Fixtures.path_exists
             Fixtures.path_open Fixtures.read_ahead Fixtures.open_image
             Fixtures.three_records (-4) Hwf)).
    left. unfold SciPDFDataset.len. simpl. lia.
  - apply (proj2 (getitem_index_range
             Fixtures.loads Fixtures.path_join Fixtures.path_exists
             Fixtures.path_open Fixtures.read_ahead Fixtures.open_image
             Fixtures.three_records (-1) Hwf)).
    unfold SciPDFDataset.len. simpl. lia.
Defined.

(** ** The list-backed store and the training samples *)

Lemma randint_in_range (a b : Z) (g : rng) :
  a <= b ->
  exists r, randint a b g = (Ok r, (next_raw g).2) /\ a <= r <= b.
Proof.
  intros Hab. unfold randint.
  destruct (Z.ltb_spec b a); [lia|]. simpl.
  eexists. split; [reflexivity|].
  pose proof (Z.mod_pos_bound (draws g (cursor g)) (b - a + 1)). lia.
Qed.

Lemma randint_empty_range (a b : Z) (g : rng) :
  b < a -> randint a b g = (Raise ValueError, g).
Proof. intros Hab. unfold randint. by destruct (Z.ltb_spec b a); [|lia]. Qed.

Section NougatProperties.
Import NougatDataset.

Context {pil : Type}.
Variable readlines : string -> option (list string).
Variable read : string -> option string.
Variable Image_open : string -> option pil.
Variable os_path_join : string -> string -> string.
Variable image_size : pil -> Z * Z.
Variable prepare_input : pil -> bool -> option tensor.
Variable tokenizer : string -> Z -> list Z * list Z.
Variable tokenizer_len : Z.

Abbreviation store_get := (CustomDataset.getitem read Image_open os_path_join).
Abbreviation nougat_get :=
  (getitem read Image_open os_path_join image_size prepare_input
     tokenizer tokenizer_len).
Abbreviation nougat_convert :=
  (convert image_size prepare_input tokenizer tokenizer_len).

(** A returned triple is the conversion of a sample the store gave:
    none comes from the sentinel. *)
Lemma getitem_Ok_from_sample (rounds : nat) (self : @t) (depth : nat) :
  forall (idx : Z) (g g' : rng) (out : triple),
    nougat_get depth rounds self idx g = Some (Ok out, g') ->
    exists (idx0 : Z) (sample : @CustomDataset.sample pil) (g0 : rng),
      store_get (dataset self) idx0 = Ok (Some sample) /\
      nougat_convert rounds self sample g0 = Some (Ok out, g').
Proof.
  induction depth as [|depth IH]; intros idx g g' out; simpl; [discriminate|].
  destruct (store_get (dataset self) idx) as [[sample|]|e] eqn:Hstore.
  - intros Hconv. by exists idx, sample, g.
  - destruct (randint 0 (dataset_length self - 1) g) as [[idx'|e] g1].
    + apply IH.
    + discriminate.
  - discriminate.
Qed.

(** The branch [if sample is None] of [__getitem__]. *)
Lemma getitem_sentinel_step (depth rounds : nat) (self : @t) (idx : Z)
    (g : rng) :
  store_get (dataset self) idx = Ok None ->
  nougat_get (S depth) rounds self idx g =
  match randint 0 (dataset_length self - 1) g with
  | (Raise e, g') => Some (Raise e, g')
  | (Ok idx', g') => nougat_get depth rounds self idx' g'
  end.
Proof. intros Hstore. simpl. by rewrite Hstore. Qed.

(** C8, as the code has it.  Where the store returns the sentinel and
    the dataset is not empty, [__getitem__] draws an index of
    [0 <= idx' < len] and its outcome is that of the nested call at
    [idx'], be it a triple, an exception or a further retry; a triple
    it returns is converted from a sample of the store, never from the
    sentinel. *)
Theorem sentinel_is_resampled
    (depth rounds : nat) (self : @t) (idx : Z) (g : rng) :
  store_get (dataset self) idx = Ok None ->
  0 < len self ->
  exists idx' : Z,
    randint 0 (len self - 1) g = (Ok idx', (next_raw g).2) /\
    0 <= idx' < len self /\
    nougat_get (S depth) rounds self idx g =
      nougat_get depth rounds self idx' (next_raw g).2 /\
    forall (out : triple) (g' : rng),
      nougat_get (S depth) rounds self idx g = Some (Ok out, g') ->
      exists (idx0 : Z) (sample : @CustomDataset.sample pil) (g0 : rng),
        store_get (dataset self) idx0 = Ok (Some sample) /\
        nougat_convert rounds self sample g0 = Some (Ok out, g').
Proof.
  intros Hstore Hlen. unfold len in *.
  destruct (randint_in_range 0 (dataset_length self - 1) g) as (idx' & Hr & Hidx');
    [lia|].
  exists idx'. split; [done|]. split; [lia|]. split.
  - by rewrite getitem_sentinel_step, Hr.
  - intros out g'. apply getitem_Ok_from_sample.
Qed.

(** On an empty dataset the draw is from an empty range. *)
Lemma sentinel_on_empty_dataset (depth rounds : nat) (self : @t) (idx : Z)
    (g : rng) :
  store_get (dataset self) idx = Ok None ->
  len self <= 0 ->
  nougat_get (S depth) rounds self idx g = Some (Raise ValueError, g).
Proof.
  intros Hstore Hlen. unfold len in *.
  by rewrite getitem_sentinel_step, randint_empty_range by (done || lia).
Qed.

Lemma store_init_fields image_list_path sentences_path image_path split store :
  CustomDataset.init readlines image_list_path sentences_path image_path split
    = Ok store ->
  CustomDataset.split store = split /\
  readlines image_list_path = Some (CustomDataset.img_list store).
Proof.
  unfold CustomDataset.init.
  destruct (readlines image_list_path) as [lines|]; [|discriminate].
  by intros [= <-].
Qed.

(** C10. For a split other than [train] the store has length 0,
    whatever the image list holds, and so has the dataset built on it:
    the store yields nothing and the dataset has no index to read. *)
Theorem other_split_is_empty
    (image_list_path sentences_path image_path split : string)
    (max_length : Z) (env : option string) (self : @t) :
  split <> "train" ->
  init readlines image_list_path sentences_path image_path
    max_length split env = Ok self ->
  readlines image_list_path = Some (CustomDataset.img_list (dataset self)) /\
  CustomDataset.len (dataset self) = 0 /\
  CustomDataset.iter read Image_open os_path_join (dataset self) = Ok [] /\
  len self = 0 /\
  forall idx : Z, ~ (0 <= idx < len self).
Proof.
  intros Hsplit Hinit. unfold init in Hinit.
  apply rbind_Ok in Hinit as (store & Hstore & Hself).
  injection Hself as <-. simpl.
  apply store_init_fields in Hstore as [Hs Hlines].
  assert (Hlen : CustomDataset.len store = 0).
  { unfold CustomDataset.len. rewrite Hs.
    destruct (String.eqb_spec split "train"); [done|done]. }
  split; [done|]. split; [done|]. split.
  - unfold CustomDataset.iter. by rewrite Hlen.
  - unfold len. simpl. split; [done|]. intros idx. lia.
Qed.

End NougatProperties.

Lemma sentinel_is_resampled_witness :
  0 < NougatDataset.len Fixtures.train_set /\
  exists idx' : Z,
    0 <= idx' < NougatDataset.len Fixtures.train_set /\
    Fixtures.readable 1000 Fixtures.train_set 0 (Fixtures.constant_rng 7) =
    Fixtures.readable 999 Fixtures.train_set idx'
      (next_raw (Fixtures.constant_rng 7)).2.
Proof.
  assert (Hlen : 0 < NougatDataset.len Fixtures.train_set)
    by (unfold NougatDataset.len; simpl; lia).
  split; [exact Hlen|].
  destruct (sentinel_is_resampled
              Fixtures.read_sentence Fixtures.open_second Fixtures.path_join
              Fixtures.image_size Fixtures.prepare_input Fixtures.tokenizer 50000
              999 8 Fixtures.train_set 0 (Fixtures.constant_rng 7))
    as (idx' & _ & Hidx' & Hget & _); [reflexivity | exact Hlen |].
  exists idx'. split; [exact Hidx' | exact Hget].
Defined.

(** With the first image unreadable and the second readable, a read of
    index 0 that draws index 1 returns the second sample's triple. *)
Example retry_reaches_second_sample :
  fst <$> Fixtures.readable 1000 Fixtures.train_set 0 (Fixtures.constant_rng 7) =
  fst <$> Fixtures.readable 1000 Fixtures.train_set 1 (Fixtures.constant_rng 7).
Proof. reflexivity. Qed.

(** When no image can be opened every read gives the sentinel, and no
    depth of nested calls is enough. *)
Lemma unreadable_never_returns (depth : nat) : forall (idx : Z) (g : rng),
  0 <= idx < 2 ->
  exists g',
    Fixtures.unreadable depth Fixtures.train_set idx g =
    Some (Raise RecursionError, g').
Proof.
  induction depth as [|depth IH]; intros idx g Hidx; [by eexists|].
  unfold Fixtures.unreadable in *. rewrite getitem_sentinel_step.
  - destruct (randint_in_range 0 1 g) as (idx' & Hr & Hidx'); [lia|].
    change (NougatDataset.dataset_length Fixtures.train_set - 1) with 1.
    rewrite Hr. apply IH. lia.
  - assert (idx = 0 \/ idx = 1) as [-> | ->] by lia; reflexivity.
Qed.

(** C8, as stated, fails.  For the split [validation] the store gives the
    sentinel at index 0 and the length is 0: the draw from [0..-1] raises
    [ValueError].  For the split [train] with no image that opens, the
    store gives the sentinel at both indices and the read of index 0
    ends in [RecursionError], however deep the calls may nest. *)
Lemma resampling_raises :
  (CustomDataset.getitem Fixtures.read_sentence Fixtures.open_nothing
     Fixtures.path_join (NougatDataset.dataset Fixtures.validation_set) 0 = Ok None /\
   Fixtures.unreadable 1000 Fixtures.validation_set 0 (Fixtures.constant_rng 7) =
     Some (Raise ValueError, Fixtures.constant_rng 7)) /\
  (CustomDataset.getitem Fixtures.read_sentence Fixtures.open_nothing
     Fixtures.path_join (NougatDataset.dataset Fixtures.train_set) 0 = Ok None /\
   forall depth : nat, exists g',
     Fixtures.unreadable depth Fixtures.train_set 0 (Fixtures.constant_rng 7) =
     Some (Raise RecursionError, g')).
Proof.
  split; [split; reflexivity|]. split; [reflexivity|].
  intros depth. apply unreadable_never_returns. lia.
Qed.

Lemma other_split_is_empty_witness :
  "validation" <> "train" /\
  Fixtures.nougat_init "validation" = Ok Fixtures.validation_set /\
  Fixtures.readlines "images.txt" =
    Some (CustomDataset.img_list (NougatDataset.dataset Fixtures.validation_set)) /\
  CustomDataset.len (NougatDataset.dataset Fixtures.validation_set) = 0 /\
  CustomDataset.iter Fixtures.read_sentence Fixtures.open_second
    Fixtures.path_join (NougatDataset.dataset Fixtures.validation_set) = Ok [] /\
  NougatDataset.len Fixtures.validation_set = 0 /\
  forall idx : Z, ~ (0 <= idx < NougatDataset.len Fixtures.validation_set).
Proof.
  assert (Hsplit : "validation" <> "train") by discriminate.
  assert (Hinit : Fixtures.nougat_init "validation" = Ok Fixtures.validation_set)
    by reflexivity.
  split; [exact Hsplit|]. split; [exact Hinit|].
  exact (other_split_is_empty
           Fixtures.readlines Fixtures.read_sentence Fixtures.open_second
           Fixtures.path_join
           "images.txt" "sentences" "images" "validation" 6 None
           Fixtures.validation_set Hsplit Hinit).
Defined.

(** * Further properties *)

(** ** Batch assembly, continued *)

Section CollateFurther.
Import Collate.

(** An item that is dropped without a trace: no image and no name. *)
Abbreviation named_only_with_image :=
  (fun x : item => x.1 = None -> x.2 = "").

(** The slot an item with an image gives. *)
Abbreviation slot_of := (fun x : item => (fun img : tensor => (img, x.2)) <$> x.1).

Lemma collate_loop_plain batch rest : forall i acc,
  Forall named_only_with_image rest ->
  collate_loop batch i rest acc = Ok (acc ++ omap slot_of rest).
Proof.
  induction rest as [|[[img|] name] rest IH]; intros i acc Hall; simpl.
  - by rewrite app_nil_r.
  - apply Forall_cons in Hall as [_ Hall].
    rewrite IH by done. by rewrite <- app_assoc.
  - apply Forall_cons in Hall as [Hname Hall]. simpl in Hname.
    rewrite Hname by done. simpl. by apply IH.
Qed.

(** What the whole call gives once the filtered list is known. *)
Lemma ignore_none_collate_of_filtered {stacked : Type}
    (default_collate : list slot -> result stacked) batch out :
  filtered batch = Ok out ->
  ignore_none_collate default_collate (Some batch) =
  match out with
  | [] => Ok None
  | _ :: _ =>
      match default_collate out with
      | Ok c => Ok (Some c)
      | Raise AttributeError => Ok None
      | Raise e => Raise e
      end
  end.
Proof.
  intros Hf. unfold ignore_none_collate. rewrite Hf. simpl.
  destruct out as [|x out]; [done|]. simpl.
  destruct (default_collate (x :: out)) as [c|[]]; reflexivity.
Qed.

(** X1. When every item without an image has an empty name, the filtered
    list is the items that have an image, in their order and with their
    names, and that list is what is collated. *)
Theorem collate_keeps_items_with_image {stacked : Type}
    (default_collate : list slot -> result stacked) (batch : list item) :
  Forall named_only_with_image batch ->
  filtered batch = Ok (omap slot_of batch) /\
  ignore_none_collate default_collate (Some batch) =
  match omap slot_of batch with
  | [] => Ok None
  | out =>
      match default_collate out with
      | Ok c => Ok (Some c)
      | Raise AttributeError => Ok None
      | Raise e => Raise e
      end
  end.
Proof.
  intros Hall.
  assert (Hf : filtered batch = Ok (omap slot_of batch)).
  { unfold filtered. by rewrite collate_loop_plain. }
  split; [done|].
  rewrite (ignore_none_collate_of_filtered _ _ _ Hf).
  by destruct (omap slot_of batch).
Qed.

Lemma setitem_last_keeps_images (acc acc' : list slot) last name :
  py_getitem acc (-1) = Ok last ->
  py_setitem acc (-1) (last.1, name) = Ok acc' ->
  acc'.*1 = acc.*1 /\ length acc' = length acc.
Proof.
  destruct (decide (acc = [])) as [->|Hne].
  - by rewrite py_getitem_nil.
  - destruct (exists_last Hne) as (front & x & ->).
    rewrite py_getitem_last, py_setitem_last.
    intros [= <-] [= <-]. rewrite !fmap_app, !length_app. done.
Qed.

Lemma collate_loop_images batch rest : forall i acc out,
  (0 < i)%nat ->
  collate_loop batch i rest acc = Ok out ->
  out.*1 = acc.*1 ++ omap fst rest.
Proof.
  induction rest as [|[[img|] name] rest IH]; intros i acc out Hi; simpl.
  - intros [= <-]. by rewrite app_nil_r.
  - intros H. apply IH in H; [|lia].
    rewrite H, fmap_app, <- app_assoc. done.
  - destruct (truthy name).
    + destruct (Z.ltb_spec 0 (Z.of_nat i)) as [_|Hle]; [|lia].
      intros H. apply rbind_Ok in H as (acc' & Hstep & H).
      apply rbind_Ok in Hstep as (last & Hlast & Hset).
      destruct (setitem_last_keeps_images _ _ _ _ Hlast Hset) as [<- _].
      apply IH in H; [done|lia].
    + simpl. intros H. apply IH in H; [done|lia].
Qed.

(** X2. Whenever the loop ends without raising, the images of the
    filtered list are the images of the batch, each once and in the order
    of the batch; the only image that can be added is the placeholder, in
    front, and only for a batch that starts with a name-bearing item
    followed by an item with an image. *)
Theorem collate_keeps_images (batch : list item) (out : list slot) :
  filtered batch = Ok out ->
  exists pre : list tensor,
    out.*1 = pre ++ omap fst batch /\
    (pre = [] \/
     exists name img1 name1 rest,
       batch = (None, name) :: (Some img1, name1) :: rest /\
       truthy name = true /\ pre = [zeros_like img1]).
Proof.
  unfold filtered. destruct batch as [|x rest]; cbn [collate_loop].
  - intros [= <-]. exists []. split; [done|by left].
  - intros H. apply rbind_Ok in H as (acc & Hstep & H).
    apply collate_loop_images in H; [|lia].
    destruct x as [[img|] name]; unfold collate_step in Hstep.
    + injection Hstep as <-. exists []. split; [done|by left].
    + destruct (truthy name) eqn:Hname;
        [|injection Hstep as <-; exists []; by split; [|left]].
      change (0 <? Z.of_nat 0) with false in Hstep. cbv iota in Hstep.
      destruct (1 <? Z.of_nat (length ((None, name) :: rest)));
        [|injection Hstep as <-; exists []; by split; [|left]].
      destruct rest as [|[image1 name1] rest].
      { by rewrite (py_getitem_out_of_range [(None, name)] 1) in Hstep
          by (simpl; lia). }
      destruct (py_getitem_nonneg ((None, name) :: (image1, name1) :: rest) 1)
        as (b1 & Hb1 & Hget); [simpl; lia|].
      rewrite Hget in Hstep. injection Hb1 as <-.
      destruct image1 as [img1|]; [|discriminate].
      cbn in Hstep. injection Hstep as <-.
      exists [zeros_like img1]. split.
      * rewrite H. cbn. by rewrite <- tensor_mul_zero.
      * right. by exists name, img1, name1, rest.
Qed.

(** X3. After an item with an image, a run of name-bearing items leaves
    one slot: the image with the last name of the run; the names before
    it are overwritten. *)
Theorem last_name_of_a_run_wins batch (names : list string) :
  forall (i : nat) (front : list slot) (img : tensor) (old : string),
    (0 < i)%nat ->
    Forall (fun n => truthy n = true) names ->
    collate_loop batch i ((fun n => (None, n)) <$> names) (front ++ [(img, old)]) =
    Ok (front ++ [(img, default old (last names))]).
Proof.
  induction names as [|n names IH]; intros i front img old Hi Hall; [done|].
  apply Forall_cons in Hall as [Hn Hall]. rewrite fmap_cons.
  cbn [collate_loop]. rewrite collate_step_attach by done.
  cbn [mbind result_bind rbind]. rewrite IH by (done || lia).
  rewrite last_cons. by destruct (last names).
Qed.

(** X4. An item without an image that is alone in its batch gives the
    empty-batch signal, whatever its name: no placeholder is built and the
    name is dropped. *)
Theorem lone_item_without_image_gives_signal {stacked : Type}
    (default_collate : list slot -> result stacked) (name : string) :
  filtered [(None, name)] = Ok [] /\
  ignore_none_collate default_collate (Some [(None, name)]) = Ok None.
Proof.
  assert (Hf : filtered [(None, name)] = Ok []).
  { unfold filtered. simpl. by destruct (truthy name). }
  split; [done|]. by rewrite (ignore_none_collate_of_filtered _ _ _ Hf).
Qed.

(** X5. A name-bearing first item followed by an item with an image
    gives the placeholder in front: the second item's image times zero,
    under the name; the items after it that have an image follow. *)
Theorem placeholder_leads_the_batch name img1 name1 (rest : list item) :
  truthy name = true ->
  Forall named_only_with_image rest ->
  filtered ((None, name) :: (Some img1, name1) :: rest) =
  Ok ((zeros_like img1, name) :: (img1, name1) :: omap slot_of rest).
Proof.
  intros Hname Hall. unfold filtered.
  rewrite (collate_loop_split _ [] (None, name) ((Some img1, name1) :: rest)).
  simpl app. rewrite placeholder_from_second_item by done.
  cbn [mbind result_bind rbind].
  rewrite collate_loop_plain; [done|].
  apply Forall_cons. split; [done|done].
Qed.

End CollateFurther.

Lemma collate_keeps_items_with_image_witness :
  Forall (fun x : option tensor * string => x.1 = None -> x.2 = "")
    [(Some Fixtures.imgA, "a"); (None, ""); (Some Fixtures.imgB, "doc")] /\
  Collate.filtered
    [(Some Fixtures.imgA, "a"); (None, ""); (Some Fixtures.imgB, "doc")] =
  Ok [(Fixtures.imgA, "a"); (Fixtures.imgB, "doc")].
Proof.
  assert (Hall : Forall (fun x : option tensor * string => x.1 = None -> x.2 = "")
            [(Some Fixtures.imgA, "a"); (None, ""); (Some Fixtures.imgB, "doc")]).
  { repeat constructor; simpl; by intros. }
  split; [exact Hall|].
  exact (proj1 (collate_keeps_items_with_image
                  (fun l => Ok (length l)) _ Hall)).
Defined.

Lemma collate_keeps_images_witness :
  Collate.filtered [(None, "doc1"); (Some Fixtures.imgB, "")] =
    Ok [(zeros_like Fixtures.imgB, "doc1"); (Fixtures.imgB, "")] /\
  exists pre : list tensor,
    [zeros_like Fixtures.imgB; Fixtures.imgB] = pre ++ [Fixtures.imgB].
Proof.
  assert (Hf : Collate.filtered [(None, "doc1"); (Some Fixtures.imgB, "")] =
               Ok [(zeros_like Fixtures.imgB, "doc1"); (Fixtures.imgB, "")])
    by reflexivity.
  split; [exact Hf|].
  destruct (collate_keeps_images _ _ Hf) as (pre & Hpre & _).
  exists pre. exact Hpre.
Defined.

Lemma last_name_of_a_run_wins_witness :
  Collate.collate_loop [] 1 [(None, "d1"); (None, "d2")] [(Fixtures.imgA, "")] =
  Ok [(Fixtures.imgA, "d2")].
Proof.
  apply (last_name_of_a_run_wins [] ["d1"; "d2"] 1 [] Fixtures.imgA "").
  - lia.
  - repeat constructor.
Defined.

Lemma placeholder_leads_the_batch_witness :
  Collate.filtered
    [(None, "doc1"); (Some Fixtures.imgB, ""); (None, ""); (Some Fixtures.imgA, "x")] =
  Ok [(zeros_like Fixtures.imgB, "doc1"); (Fixtures.imgB, ""); (Fixtures.imgA, "x")].
Proof.
  apply (placeholder_leads_the_batch "doc1" Fixtures.imgB ""
           [(None, ""); (Some Fixtures.imgA, "x")]).
  - reflexivity.
  - repeat constructor; simpl; by intros.
Defined.

Lemma nameless_batch_gives_signal_witness :
  Collate.ignore_none_collate (fun l => Ok (length l))
    (Some [(None, ""); (None, ""); (None, "")]) = Ok None.
Proof.
  apply nameless_batch_gives_signal. repeat constructor.
Defined.

(** ** ImageDataset, continued *)

Lemma py_getitem_Ok_iff {A} (l : list A) (i : Z) (x : A) :
  py_getitem l i = Ok x <->
  - Z.of_nat (length l) <= i < Z.of_nat (length l) /\
  l !! Z.to_nat (if i <? 0 then i + Z.of_nat (length l) else i) = Some x.
Proof.
  unfold py_getitem.
  destruct (Z.ltb_spec i 0) as [Hneg|Hpos].
  - destruct (Z.leb_spec 0 (i + Z.of_nat (length l))) as [Hle|Hlt]; simpl.
    + destruct (Z.ltb_spec (i + Z.of_nat (length l)) (Z.of_nat (length l)));
        [|lia].
      destruct (l !! Z.to_nat (i + Z.of_nat (length l))) eqn:Hl.
      * split; [intros [= <-]; split; [lia|done] | intros [_ [= <-]]; done].
      * split; [discriminate | intros [_ Hx]; discriminate].
    + split; [discriminate | intros [Hx _]; lia].
  - destruct (Z.leb_spec 0 i) as [_|]; [|lia]. simpl.
    destruct (Z.ltb_spec i (Z.of_nat (length l))) as [Hlt|Hge].
    + destruct (l !! Z.to_nat i) eqn:Hl.
      * split; [intros [= <-]; split; [lia|done] | intros [_ [= <-]]; done].
      * split; [discriminate | intros [_ Hx]; discriminate].
    + split; [discriminate | intros [Hx _]; lia].
Qed.

Section ImageFurther.
Import ImageDataset.

Context {raw pil : Type}.
Variable Image_open : raw -> result pil.
Variable prepare : pil -> result (option tensor).

(** X6. [ImageDataset.__getitem__] returns a tensor exactly when the
    index is within [-len <= idx < len], the page at it opens and its
    preparation returns a tensor; in every other case, an index out of
    range included, it returns [None]. *)
Theorem image_getitem_Some_iff (self : @t raw) (idx : Z) (out : tensor) :
  getitem Image_open prepare self idx = Some out <->
  - len self <= idx < len self /\
  exists (p : raw) (img : pil),
    img_list self !! Z.to_nat (if idx <? 0 then idx + len self else idx) = Some p /\
    Image_open p = Ok img /\
    prepare img = Ok (Some out).
Proof.
  unfold getitem, len. split.
  - destruct (py_getitem (img_list self) idx) as [p|e] eqn:Hp; [|done].
    apply py_getitem_Ok_iff in Hp as [Hrange Hp]. simpl.
    destruct (Image_open p) as [img|e] eqn:Himg; [|done]. simpl.
    destruct (prepare img) as [r|e] eqn:Hr; [|done].
    intros ->. split; [done|]. by exists p, img.
  - intros (Hrange & p & img & Hp & Himg & Hr).
    rewrite (proj2 (py_getitem_Ok_iff _ _ _) (conj Hrange Hp)). simpl.
    by rewrite Himg; simpl; rewrite Hr.
Qed.

End ImageFurther.

Section ImageCollateFurther.
Import ImageCollate.

Context {X Y stacked : Type}.
Variable item0 : X -> result (option Y).
Variable default_collate : list X -> result stacked.

(** X7. When [x[0]] never raises, the list collated is the items that
    are not [None] and whose [x[0]] is not [None], in their order; the
    collate function is not called on an empty list: the call returns
    [None] then. *)
Theorem image_collate_filters (first : X -> option Y)
    (batch : list (option X)) :
  (forall x, item0 x = Ok (first x)) ->
  kept item0 batch =
    Ok (omap (fun ox => x ← ox; if is_None (first x) then None else Some x) batch) /\
  ignore_none_collate item0 default_collate (Some batch) =
  match omap (fun ox => x ← ox; if is_None (first x) then None else Some x) batch with
  | [] => Ok None
  | out =>
      match default_collate out with
      | Ok c => Ok (Some c)
      | Raise AttributeError => Ok None
      | Raise e => Raise e
      end
  end.
Proof.
  intros Hfirst.
  assert (Hkept : kept item0 batch =
    Ok (omap (fun ox => x ← ox; if is_None (first x) then None else Some x) batch)).
  { induction batch as [|[x|] batch IH]; simpl; [done| |done].
    rewrite Hfirst, IH. simpl. by destruct (first x). }
  split; [done|]. unfold ignore_none_collate. rewrite Hkept. simpl.
  destruct (omap _ batch) as [|x out]; [done|]. simpl.
  destruct (default_collate (x :: out)) as [c|[]]; reflexivity.
Qed.

(** X8. A batch of [None] items gives [None], whatever [x[0]] and the
    collate function would do. *)
Theorem image_collate_all_none (batch : list (option X)) :
  Forall (fun ox => ox = None) batch ->
  ignore_none_collate item0 default_collate (Some batch) = Ok None.
Proof.
  intros Hall. unfold ignore_none_collate.
  assert (Hkept : kept item0 batch = Ok []).
  { induction Hall as [|ox batch -> _ IH]; [done|]. exact IH. }
  by rewrite Hkept.
Qed.

End ImageCollateFurther.

Lemma image_getitem_Some_iff_witness :
  ImageDataset.getitem Fixtures.open_page Fixtures.prepare_page
    {| ImageDataset.img_list := [10; 11] |} (-1) =
    Some {| shape := [1%nat]; data := [11] |} /\
  - 2 <= -1 < 2.
Proof.
  assert (H : ImageDataset.getitem Fixtures.open_page Fixtures.prepare_page
                {| ImageDataset.img_list := [10; 11] |} (-1) =
              Some {| shape := [1%nat]; data := [11] |}) by reflexivity.
  split; [exact H|].
  exact (proj1 (proj1 (image_getitem_Some_iff _ _ _ _ _) H)).
Defined.

Lemma image_collate_filters_witness :
  ImageCollate.kept (fun x : Z => Ok (if x =? 0 then None else Some x))
    [Some 1; None; Some 0; Some 2] = Ok [1; 2].
Proof.
  exact (proj1 (image_collate_filters
                  (fun x : Z => Ok (if x =? 0 then None else Some x))
                  (fun l : list Z => Ok (length l))
                  (fun x : Z => if x =? 0 then None else Some x)
                  [Some 1; None; Some 0; Some 2]
                  (fun x => eq_refl))).
Defined.

Lemma image_collate_all_none_witness :
  ImageCollate.ignore_none_collate
    (fun x : Z => Raise IndexError : result (option Z))
    (fun l : list Z => Ok (length l)) (Some [None; None]) = Ok None.
Proof.
  apply image_collate_all_none. repeat constructor.
Defined.

(** ** Lazy page access, continued *)

Section LazyFurther.
Import LazyDataset.

Context {raw pil : Type}.
Variable Image_open : raw -> result pil.
Variable prepare : pil -> result (option tensor).

Abbreviation lazy_get := (getitem Image_open prepare).
Abbreviation lazy_run := (access Image_open prepare).
Abbreviation page_of :=
  (fun (pages : list raw) (i : Z) =>
     ImageDataset.getitem Image_open prepare
       {| ImageDataset.img_list := pages |} i).

(** X9. Every negative index and every index above [len] raises
    [IndexError]; the document is rasterized all the same when the page
    set was not there. *)
Theorem lazy_getitem_out_of_range (self : @t raw) (i : Z) :
  i < 0 \/ len self < i ->
  (lazy_get self i).1 = Raise IndexError /\
  dataset (lazy_get self i).2 <> None /\
  (dataset self = None ->
   rasterizations (lazy_get self i).2 = S (rasterizations self)).
Proof.
  intros Hi. unfold len in Hi.
  assert (Hne : (i =? 0) = false) by (apply Z.eqb_neq; lia).
  split; [|split].
  - unfold getitem.
    destruct ((i =? 0) || is_None (dataset self)); simpl.
    + destruct (Z.leb_spec i (Z.of_nat (size self)));
        destruct (Z.geb_spec i 0); simpl; try done; lia.
    + destruct (Z.leb_spec i (Z.of_nat (size self)));
        destruct (Z.geb_spec i 0); simpl; try done; lia.
  - destruct (getitem_dataset_Some Image_open prepare self i) as (d & -> & _).
    done.
  - intros Hnone. rewrite getitem_state, Hnone, Hne. done.
Qed.

(** The state of an object that [__init__] made and reads have used: the
    page set is not there, or it is the rasterizer's. *)
Lemma getitem_result_canonical (self : @t raw) (i : Z) :
  dataset self = None \/ materialized self ->
  materialized (lazy_get self i).2 /\
  (lazy_get self i).1 =
    if (i <=? len self) && (i >=? 0)
    then Ok (page_of (pages_of_pdf self) i,
             if i =? len self - 1 then name self else "")
    else Raise IndexError.
Proof.
  intros Hstate. split.
  - rewrite getitem_state. unfold materialized in *.
    destruct ((i =? 0) || is_None (dataset self)) eqn:Hcond; [done|].
    destruct Hstate as [Hnone|Hm]; [|done].
    rewrite Hnone in Hcond. by rewrite orb_true_r in Hcond.
  - unfold getitem, len, materialized in *.
    destruct ((i =? 0) || is_None (dataset self)) eqn:Hcond; simpl.
    + by destruct (_ && _).
    + destruct Hstate as [Hnone|Hm].
      * rewrite Hnone in Hcond. by rewrite orb_true_r in Hcond.
      * rewrite Hm. by destruct (_ && _).
Qed.

Lemma access_canonical (idxs : list Z) : forall self : @t raw,
  dataset self = None \/ materialized self ->
  (dataset (lazy_run self idxs) = None \/ materialized (lazy_run self idxs)) /\
  name (lazy_run self idxs) = name self /\
  size (lazy_run self idxs) = size self /\
  pages_of_pdf (lazy_run self idxs) = pages_of_pdf self.
Proof.
  induction idxs as [|i idxs IH]; intros self Hstate; simpl; [done|].
  destruct (getitem_result_canonical self i Hstate) as [Hm _].
  destruct (IH _ (or_intror Hm)) as (H1 & H2 & H3 & H4).
  destruct (getitem_keeps Image_open prepare self i) as (K2 & K3 & K4).
  split; [done|]. by rewrite H2, H3, H4.
Qed.

(** X10. What a read returns does not depend on the reads made before
    it on the same object: after any reads, [get(i)] gives what it gives
    on the object as it was. *)
Theorem lazy_getitem_history_free (self : @t raw) (idxs : list Z) (i : Z) :
  dataset self = None \/ materialized self ->
  (lazy_get (lazy_run self idxs) i).1 = (lazy_get self i).1.
Proof.
  intros Hstate.
  destruct (access_canonical idxs self Hstate) as (Hstate' & Hn & Hs & Hp).
  rewrite (proj2 (getitem_result_canonical _ i Hstate')).
  rewrite (proj2 (getitem_result_canonical _ i Hstate)).
  unfold len. by rewrite Hn, Hs, Hp.
Qed.

Lemma fetch_canonical (idxs : list Z) : forall self : @t raw,
  dataset self = None \/ materialized self ->
  Forall (fun i => 0 <= i <= len self) idxs ->
  Loader.fetch Image_open prepare self idxs =
  Ok ((fun i => (page_of (pages_of_pdf self) i,
                 if i =? len self - 1 then name self else "")) <$> idxs).
Proof.
  induction idxs as [|i idxs IH]; intros self Hstate Hall; [done|].
  apply Forall_cons in Hall as [Hi Hall]. cbn [Loader.fetch].
  destruct (getitem_result_canonical self i Hstate) as [Hm Hres].
  destruct (getitem_keeps Image_open prepare self i) as (K2 & K3 & K4).
  destruct (lazy_get self i) as [r self'] eqn:Hget. simpl in *.
  rewrite Hres.
  destruct (Z.leb_spec i (len self)); [|lia].
  destruct (Z.geb_spec i 0); [|lia]. simpl.
  rewrite IH; [|by right|].
  - unfold len. by rewrite K2, K3, K4.
  - unfold len in *. by rewrite K3.
Qed.

(** X11. Fetching the pages [0 .. n-1] of a new document of [n] pages
    whose last page is usable, and filtering what was fetched, gives the
    usable pages in order, all under the empty name but the last, which
    has the document's name. *)
Theorem fetch_then_filter (pdf_name : string) (pages : list raw)
    (n : nat) (last_page : tensor) :
  length pages = S n ->
  page_of pages (Z.of_nat n) = Some last_page ->
  exists batch,
    Loader.fetch Image_open prepare (init pdf_name (S n) pages)
      (Z.of_nat <$> seq 0 (S n)) = Ok batch /\
    Collate.filtered batch =
    Ok (omap (fun i => (fun img => (img, "")) <$> page_of pages (Z.of_nat i))
          (seq 0 n) ++ [(last_page, pdf_name)]).
Proof.
  intros Hlen Hlast. set (self := init pdf_name (S n) pages).
  eexists. split.
  - apply fetch_canonical; [by left|].
    apply Forall_fmap, Forall_forall. intros i Hi%elem_of_seq.
    unfold len. simpl. lia.
  - unfold Collate.filtered. rewrite seq_S, !fmap_app.
    rewrite collate_loop_app. simpl pages_of_pdf. simpl name.
    rewrite collate_loop_plain.
    + simpl. rewrite length_fmap, length_fmap, length_seq.
      replace (Z.of_nat (0 + n)%nat) with (Z.of_nat n) by (f_equal; lia).
      rewrite Hlast.
      destruct (Z.eqb_spec (Z.of_nat n) (len self - 1)) as [_|Hne];
        [|unfold len in Hne; simpl in Hne; lia].
      simpl. f_equal. f_equal.
      assert (Hin : Forall (fun i => (i < n)%nat) (seq 0 n)).
      { apply Forall_forall. intros i Hi%elem_of_seq. lia. }
      induction Hin as [|i l Hi _ IH]; [done|].
      rewrite !fmap_cons. cbn [omap list_omap]. rewrite IH.
      destruct (Z.eqb_spec (Z.of_nat i) (len self - 1)) as [Heq|_];
        [unfold len in Heq; simpl in Heq; lia|].
      simpl. by destruct (ImageDataset.getitem _ _ _ _).
    + apply Forall_fmap, Forall_fmap, Forall_forall.
      intros i Hi%elem_of_seq. simpl.
      destruct (Z.eqb_spec (Z.of_nat i) (len self - 1)) as [Heq|_]; [|done].
      unfold len in Heq. simpl in Heq. lia.
Qed.

End LazyFurther.

Lemma lazy_getitem_out_of_range_witness :
  (LazyDataset.getitem Fixtures.open_page Fixtures.prepare_page
     Fixtures.five_pages 6).1 = Raise IndexError /\
  (LazyDataset.getitem Fixtures.open_page Fixtures.prepare_page
     Fixtures.five_pages (-1)).1 = Raise IndexError.
Proof.
  split.
  - apply (lazy_getitem_out_of_range Fixtures.open_page Fixtures.prepare_page
             Fixtures.five_pages 6).
    right. unfold LazyDataset.len. simpl. lia.
  - apply (lazy_getitem_out_of_range Fixtures.open_page Fixtures.prepare_page
             Fixtures.five_pages (-1)).
    left. lia.
Defined.

Lemma lazy_getitem_history_free_witness :
  (LazyDataset.getitem Fixtures.open_page Fixtures.prepare_page
     (LazyDataset.access Fixtures.open_page Fixtures.prepare_page
        Fixtures.five_pages [3; 0; 4]) 2).1 =
  (LazyDataset.getitem Fixtures.open_page Fixtures.prepare_page
     Fixtures.five_pages 2).1.
Proof.
  apply (lazy_getitem_history_free Fixtures.open_page Fixtures.prepare_page
           Fixtures.five_pages [3; 0; 4] 2).
  left. reflexivity.
Defined.

Lemma fetch_then_filter_witness :
  exists batch,
    Loader.fetch Fixtures.open_page Fixtures.prepare_page
      (LazyDataset.init "paper.pdf" 2 [10; 11]) [0; 1] = Ok batch /\
    Collate.filtered batch =
    Ok [({| shape := [1%nat]; data := [10] |}, "");
        ({| shape := [1%nat]; data := [11] |}, "paper.pdf")].
Proof.
  exact (fetch_then_filter Fixtures.open_page Fixtures.prepare_page
           "paper.pdf" [10; 11] 1 {| shape := [1%nat]; data := [11] |}
           eq_refl eq_refl).
Defined.

(** ** Indexed record access, continued *)

Section SciPDFFurther.
Import SciPDFDataset.

Context {pil : Type}.
Variable loads : string -> option json.
Variable path_join : string -> string -> string.
Variable parent : string -> string.
Variable stem : string -> string.
Variable path_exists : string -> bool.
Variable path_open : string -> result string.
Variable read_ahead : string -> Z -> nat.
Variable format : string -> string -> string.
Variable load_seek_map : string -> result (list Z).
Variable Image_open : string -> result pil.

Abbreviation sget :=
  (getitem loads path_join path_exists path_open read_ahead Image_open).
Abbreviation sdecode := (decode loads path_join path_exists Image_open).
Abbreviation sunusable := (unusable loads path_join path_exists Image_open).
Abbreviation sinit :=
  (init path_join parent stem path_exists format load_seek_map).
Abbreviation siter_over :=
  (SciPDFIter.iter_over loads path_join path_exists path_open read_ahead
     Image_open).
Abbreviation siter :=
  (SciPDFIter.iter loads path_join path_exists path_open read_ahead Image_open).


Lemma decode_sentinel_inv (self : @t) (line : string) :
  sdecode self line = Ok empty_sample -> sunusable self line.
Proof.
  unfold decode. destruct (loads line) as [data|] eqn:Hparse;
    [|intros _; by apply parse_failure].
  intros H. apply rbind_Ok in H as ([image_ref d] & Hpop & H).
  destruct data as [| | | |l|d0]; try discriminate. simpl in Hpop.
  destruct (d0 !! "image") as [v|] eqn:Himage; [|discriminate].
  injection Hpop as <- <-.
  apply rbind_Ok in H as (img_path & Hpath & H).
  destruct v as [| | |p| |]; try discriminate. injection Hpath as <-.
  destruct (path_exists _) eqn:Hex; simpl in H.
  - destruct (Image_open _) as [img|e] eqn:Hopen.
    + apply rbind_Ok in H as ([markdown d'] & _ & H). discriminate.
    + destruct e; try discriminate.
      by eapply image_undecodable.
  - by eapply image_missing.
Qed.

(** X14. Once the line is read, the sentinel is returned for the
    unusable record lines and for no other.  A line that parses to
    something else than a dictionary raises, [TypeError] for a list and
    [AttributeError] otherwise; a dictionary without [image] raises
    [KeyError] and one whose [image] is no string [TypeError]; an image
    that is there and whose opening raises another exception than
    [UnidentifiedImageError] raises that exception; and a dictionary
    whose image is there and opens but that has no [markdown] raises
    [KeyError]. *)
Theorem sentinel_iff_unusable (self : @t) (line : string) :
  (sdecode self line = Ok empty_sample <-> sunusable self line) /\
  (forall l, loads line = Some (JList l) -> sdecode self line = Raise TypeError) /\
  (forall data, loads line = Some data ->
     (forall l, data <> JList l) -> (forall d, data <> JDict d) ->
     sdecode self line = Raise AttributeError) /\
  (forall d, loads line = Some (JDict d) ->
     (d !! "image" = None -> sdecode self line = Raise KeyError) /\
     (forall v, d !! "image" = Some v -> (forall p, v <> JStr p) ->
        sdecode self line = Raise TypeError) /\
     (forall p, d !! "image" = Some (JStr p) ->
        path_exists (image_path_of path_join self p) = true ->
        (forall e, Image_open (image_path_of path_join self p) = Raise e ->
           e <> UnidentifiedImageError -> sdecode self line = Raise e) /\
        (forall img, Image_open (image_path_of path_join self p) = Ok img ->
           d !! "markdown" = None -> sdecode self line = Raise KeyError))).
Proof.
  split; [split; [apply decode_sentinel_inv|apply decode_unusable]|].
  unfold decode, image_path_of. split; [|split].
  - intros l ->. done.
  - intros data -> Hlist Hdict.
    destruct data as [| | | |l|d]; try done;
      [by destruct (Hlist l)|by destruct (Hdict d)].
  - intros d ->. simpl. split; [|split].
    + by intros ->.
    + intros v -> Hv. simpl. destruct v as [| | |p| |]; try done.
      by destruct (Hv p).
    + intros p -> Hex. simpl. rewrite Hex. simpl. split.
      * intros e -> He. by destruct e.
      * intros img -> Hmd. rewrite lookup_delete_ne by done.
        by rewrite Hmd.
Qed.

(** X15. A record whose line parses to a dictionary with a string under
    [image] and a value under [markdown], and whose image exists and
    opens, gives a sample: the opened image, the value of [markdown], and
    as [meta] the dictionary without these two keys. *)
Theorem usable_record_gives_sample (self : @t) (line : string)
    (d : gmap string json) (p : string) (markdown : json) (img : pil) :
  loads line = Some (JDict d) ->
  d !! "image" = Some (JStr p) ->
  d !! "markdown" = Some markdown ->
  path_exists (image_path_of path_join self p) = true ->
  Image_open (image_path_of path_join self p) = Ok img ->
  exists m : gmap string json,
    sdecode self line =
      Ok (Some {| image := img; ground_truth := markdown; meta := m |}) /\
    m !! "image" = None /\ m !! "markdown" = None /\
    forall k : string, k <> "image" -> k <> "markdown" -> m !! k = d !! k.
Proof.
  intros Hparse Himage Hmd Hex Hopen. unfold image_path_of in *.
  exists (delete "markdown" (delete "image" d)). split; [|split; [|split]].
  - unfold decode. rewrite Hparse. simpl. rewrite Himage. simpl.
    rewrite Hex, Hopen. simpl.
    rewrite lookup_delete_ne by done. rewrite Hmd. done.
  - rewrite lookup_delete_ne by done. apply lookup_delete_eq.
  - apply lookup_delete_eq.
  - intros k Hk1 Hk2. by rewrite !lookup_delete_ne.
Qed.

(** X16. The record file is opened at most once.  A read that returns
    leaves the file open, and with the file open a read never calls
    [open]: it gives the same whatever [open] would answer. *)
Theorem file_opened_once (self : @t) (index : Z)
    (other_open : string -> result string) :
  (forall x, (sget self index).1 = Ok x ->
             dataset_file (sget self index).2 <> None) /\
  (dataset_file self <> None ->
   getitem loads path_join path_exists other_open read_ahead Image_open self index =
   sget self index).
Proof.
  unfold getitem. split.
  - destruct (py_getitem (seek_map self) index) as [position|e]; [|done].
    destruct (dataset_file self) as [h|]; simpl.
    + destruct (position <? 0); [done|].
      by destruct (read_line read_ahead (content h) position).
    + destruct (path_open (path_to_index self)) as [text|e]; [|done].
      simpl. destruct (position <? 0); [done|].
      by destruct (read_line read_ahead text position).
  - intros Hopen. destruct (dataset_file self) as [h|]; done.
Qed.

(** X17. Reads keep the seek map and the length: after any sequence of
    reads the length is still the number of offsets. *)
Theorem reads_keep_length (self : @t) (idxs : list Z) :
  well_formed self ->
  well_formed (siter_over self idxs).2 /\
  seek_map (siter_over self idxs).2 = seek_map self /\
  len (siter_over self idxs).2 = len self.
Proof.
  revert self. induction idxs as [|i idxs IH]; intros self Hwf; simpl; [done|].
  destruct (getitem_preserves loads path_join path_exists path_open read_ahead
              Image_open self i) as (Hmap & _ & _ & _ & Hlen).
  destruct (sget self i) as [[x|e] self'] eqn:Hget; simpl in *.
  - assert (Hwf' : well_formed self').
    { unfold well_formed in *. by rewrite Hmap, Hlen. }
    destruct (IH self' Hwf') as (H1 & H2 & H3).
    destruct (siter_over self' idxs) as [[xs stop] self'']. simpl in *.
    split; [done|]. split; [by rewrite H2|].
    unfold len in *. by rewrite H3.
  - unfold well_formed, len in *. by rewrite Hmap, Hlen.
Qed.

Lemma iter_over_spec (idxs : list Z) : forall self : @t,
  (forall k x, (siter_over self idxs).1.1 !! k = Some x ->
     exists i, idxs !! k = Some i /\ (sget self i).1 = Ok x) /\
  ((siter_over self idxs).1.2 = None ->
     length (siter_over self idxs).1.1 = length idxs) /\
  (forall e, (siter_over self idxs).1.2 = Some e ->
     exists i, idxs !! length (siter_over self idxs).1.1 = Some i /\
               (sget self i).1 = Raise e).
Proof.
  induction idxs as [|i idxs IH]; intros self; simpl.
  - split; [intros k x Hk; by rewrite lookup_nil in Hk|done].
  - destruct (sget self i) as [[x|e] self'] eqn:Hget.
    + destruct (IH self') as (H1 & H2 & H3).
      assert (Hsame : forall j, (sget self' j).1 = (sget self j).1).
      { intros j. replace self' with (sget self i).2 by (by rewrite Hget).
        apply getitem_isolated. }
      destruct (siter_over self' idxs) as [[xs stop] self'']. simpl in *.
      split; [|split].
      * intros [|k] y Hk; simpl in Hk.
        -- injection Hk as <-. exists i. by rewrite Hget.
        -- destruct (H1 k y Hk) as (j & Hj & Hy). exists j.
           split; [done|]. by rewrite <- Hsame.
      * intros Hstop. by rewrite H2.
      * intros e Hstop. destruct (H3 e Hstop) as (j & Hj & He).
        exists j. split; [done|]. by rewrite <- Hsame.
    + simpl. split; [intros k x Hk; by rewrite lookup_nil in Hk|].
      split; [done|]. intros e' [= <-]. exists i. by rewrite Hget.
Qed.

(** X18. Iterating a store yields, in order, what reading the indices
    [0, 1, ...] of the store gives one by one; it yields [len] items when
    no read raises, and stops at the first index whose read raises. *)
Theorem iter_yields_the_reads (self : @t) :
  0 <= dataset_length self ->
  (forall (k : nat) x, (siter self).1.1 !! k = Some x ->
     (sget self (Z.of_nat k)).1 = Ok x) /\
  ((siter self).1.2 = None ->
     Z.of_nat (length (siter self).1.1) = len self) /\
  (forall e, (siter self).1.2 = Some e ->
     (sget self (Z.of_nat (length (siter self).1.1))).1 = Raise e).
Proof.
  intros Hlen. unfold SciPDFIter.iter, SciPDFIter.range, len.
  destruct (iter_over_spec (Z.of_nat <$> seq 0 (Z.to_nat (dataset_length self)))
              self) as (H1 & H2 & H3).
  split; [|split].
  - intros k x Hk. destruct (H1 k x Hk) as (i & Hi & Hx).
    apply list_lookup_fmap_Some in Hi as (j & -> & Hj).
    apply lookup_seq in Hj as [-> _]. done.
  - intros Hstop. rewrite (H2 Hstop), length_fmap, length_seq. lia.
  - intros e Hstop. destruct (H3 e Hstop) as (i & Hi & He).
    apply list_lookup_fmap_Some in Hi as (j & -> & Hj).
    apply lookup_seq in Hj as [-> _]. done.
Qed.

End SciPDFFurther.

(** ** The list-backed store, continued *)

Lemma replace_char_chars (c : ascii) (by_ s : string) (x : ascii) :
  In x (String.list_ascii_of_string (replace_char c by_ s)) ->
  In x (String.list_ascii_of_string by_) \/
  (x <> c /\ In x (String.list_ascii_of_string s)).
Proof.
  assert (Happ : forall a b,
             In x (String.list_ascii_of_string (a +:+ b)) ->
             In x (String.list_ascii_of_string a) \/
             In x (String.list_ascii_of_string b)).
  { intros a b. induction a as [|y a IH]; [by right|].
    rewrite string_app_cons. simpl. intros [->|H]; [by left; left|].
    destruct (IH H); [left; by right|by right]. }
  induction s as [|a s IH]; simpl; [done|].
  destruct (Ascii.eqb_spec a c) as [->|Hne].
  - intros H. destruct (Happ _ _ H) as [H'|H']; [by left|].
    destruct (IH H') as [|[? ?]]; [by left|right; split; [done|by right]].
  - simpl. intros [<-|H]; [right; split; [done|by left]|].
    destruct (IH H) as [|[? ?]]; [by left|right; split; [done|by right]].
Qed.

Lemma mapM_result_total {A B} (f : A -> result B) (l : list A) :
  Forall (fun a => exists b, f a = Ok b) l ->
  exists out, mapM f l = Ok out /\ length out = length l.
Proof.
  induction 1 as [|a l [b Hb] _ (out & Hout & Hlen)]; simpl.
  - by exists [].
  - exists (b :: out). rewrite Hb. simpl. rewrite Hout. simpl.
    split; [done|by rewrite Hlen].
Qed.

Section CustomFurther.
Import CustomDataset.

Context {pil : Type}.
Variable readlines : string -> option (list string).
Variable read : string -> option string.
Variable Image_open : string -> option pil.
Variable os_path_join : string -> string -> string.

Abbreviation cget := (getitem read Image_open os_path_join).
Abbreviation citer := (iter read Image_open os_path_join).

(** The rest of [__getitem__] once the entry of the list is known: it
    returns, a sample or [None]. *)
Lemma getitem_of_entry (self : @t) (idx : Z) (entry : string) :
  py_getitem (if String.eqb (split self) "train" then img_list self else [""])
    idx = Ok entry ->
  exists r, cget self idx = Ok r.
Proof.
  intros Hentry. unfold getitem. rewrite Hentry. simpl.
  destruct (Image_open _); [|by eexists].
  destruct (read _); by eexists.
Qed.

(** X19. For a split other than [train] the length is 0, yet the indices
    0 and -1 are read as an entry that is the empty string: the call
    looks for an image at [image_path] joined with the empty name, and
    returns [None] when none opens there.  Every other index raises
    [IndexError]. *)
Theorem other_split_reads_empty_entry (self : @t) :
  split self <> "train" ->
  len self = 0 /\
  cget self (-1) = cget self 0 /\
  (exists r, cget self 0 = Ok r) /\
  (Image_open (os_path_join (image_path self) "") = None ->
   cget self 0 = Ok None) /\
  (forall idx : Z, idx <> 0 -> idx <> -1 -> cget self idx = Raise IndexError).
Proof.
  intros Hsplit. unfold len, getitem.
  destruct (String.eqb_spec (split self) "train") as [|_]; [done|].
  split; [done|]. split; [done|]. split; [|split].
  - simpl. destruct (Image_open _); [|by eexists].
    destruct (read _); by eexists.
  - intros Hopen. simpl. by rewrite Hopen.
  - intros idx H0 H1. rewrite py_getitem_out_of_range; [done|]. simpl. lia.
Qed.

(** X20. For the split [train], a read raises exactly when the index is
    outside [-len <= idx < len], and then it is [IndexError]; a file that
    cannot be opened gives [None], not an exception.  So iterating the
    store yields [len] items. *)
Theorem train_split_reads (self : @t) :
  split self = "train" ->
  (forall idx : Z,
      (idx < - len self \/ len self <= idx -> cget self idx = Raise IndexError) /\
      (- len self <= idx < len self -> exists r, cget self idx = Ok r)) /\
  exists items, citer self = Ok items /\ Z.of_nat (length items) = len self.
Proof.
  intros Hsplit.
  assert (Hlen : len self = Z.of_nat (length (img_list self))).
  { unfold len. by rewrite Hsplit. }
  assert (Hin : forall idx, - len self <= idx < len self ->
                  exists r, cget self idx = Ok r).
  { intros idx Hidx.
    destruct (py_getitem (img_list self) idx) as [entry|e] eqn:Hentry.
    - apply (getitem_of_entry self idx entry). by rewrite Hsplit.
    - destruct (Z.ltb_spec idx 0) as [Hneg|Hpos].
      + rewrite py_getitem_negative in Hentry by lia.
        destruct (py_getitem_nonneg (img_list self) (idx + Z.of_nat (length (img_list self))))
          as (x & _ & Hx); [lia|congruence].
      + destruct (py_getitem_nonneg (img_list self) idx) as (x & _ & Hx);
          [lia|congruence]. }
  split.
  - intros idx. split; [|apply Hin].
    intros Hout. unfold getitem. rewrite Hsplit. simpl.
    rewrite py_getitem_out_of_range; [done|lia].
  - unfold iter.
    destruct (mapM_result_total (fun i => cget self (Z.of_nat i))
                (seq 0 (Z.to_nat (len self)))) as (items & Hitems & Hl).
    + apply Forall_forall. intros i Hi%elem_of_seq. apply Hin. lia.
    + exists items. split; [done|]. rewrite Hl, length_seq. lia.
Qed.

(** X21. A sample comes with the paths it was read from.  The image path
    is [image_path] joined with the entry of the list without its
    newlines; the sentence is the content of the file of [sentences_path]
    named by that entry with every [/] turned into [_], plus [.txt]: a
    name without any [/] and without any newline. *)
Theorem sample_paths (self : @t) (idx : Z) (sample : @sample pil) :
  cget self idx = Ok (Some sample) ->
  exists entry : string,
    py_getitem (if String.eqb (split self) "train" then img_list self else [""])
      idx = Ok entry /\
    meta_img_path sample =
      os_path_join (image_path self) (replace_char newline "" entry) /\
    Image_open (meta_img_path sample) = Some (image sample) /\
    read (os_path_join (sentences_path self)
            (replace_char "/"%char "_" (replace_char newline "" entry) +:+ ".txt")) =
      Some (ground_truth sample) /\
    ~ In newline (String.list_ascii_of_string (replace_char newline "" entry)) /\
    ~ In "/"%char
        (String.list_ascii_of_string
           (replace_char "/"%char "_" (replace_char newline "" entry))) /\
    ~ In newline
        (String.list_ascii_of_string
           (replace_char "/"%char "_" (replace_char newline "" entry))).
Proof.
  unfold getitem. intros H.
  apply rbind_Ok in H as (entry & Hentry & H).
  destruct (Image_open _) as [img|] eqn:Hopen; [|discriminate].
  destruct (read _) as [sentence|] eqn:Hread; [|discriminate].
  injection H as <-. simpl. exists entry.
  assert (Hnl : ~ In newline
                  (String.list_ascii_of_string (replace_char newline "" entry))).
  { intros Hin. apply replace_char_chars in Hin as [[]|[Hne _]]. done. }
  repeat split; try done.
  - intros Hin. apply replace_char_chars in Hin as [Hin|[Hne _]]; [|done].
    simpl in Hin. destruct Hin as [Hin|[]]. discriminate.
  - intros Hin. apply replace_char_chars in Hin as [Hin|[_ Hin]]; [|done].
    simpl in Hin. destruct Hin as [Hin|[]]. discriminate.
Qed.

End CustomFurther.

(** ** Training samples, continued *)

Lemma randint_Ok_inv (a b r : Z) (g g' : rng) :
  randint a b g = (Ok r, g') -> a <= r <= b /\ g' = (next_raw g).2.
Proof.
  unfold randint. destruct (Z.ltb_spec b a); [discriminate|]. simpl.
  intros [= <- <-]. split; [|done].
  pose proof (Z.mod_pos_bound (draws g (cursor g)) (b - a + 1)). lia.
Qed.

Lemma randint_Raise_inv (a b : Z) (e : exn) (g g' : rng) :
  randint a b g = (Raise e, g') -> b < a /\ e = ValueError /\ g' = g.
Proof.
  unfold randint. destruct (Z.ltb_spec b a); [|discriminate].
  by intros [= <- <-].
Qed.

Lemma py_setitem_Ok_inv {A} (l l' : list A) (i : Z) (x : A) :
  0 <= i -> py_setitem l i x = Ok l' ->
  i < Z.of_nat (length l) /\ l' = <[Z.to_nat i := x]> l.
Proof.
  intros Hi. unfold py_setitem.
  destruct (Z.ltb_spec i 0); [lia|].
  destruct (Z.leb_spec 0 i); [|lia].
  destruct (Z.ltb_spec i (Z.of_nat (length l))); [|discriminate].
  simpl. by intros [= <-].
Qed.

Lemma py_setitem_in_range {A} (l : list A) (i : Z) (x : A) :
  0 <= i < Z.of_nat (length l) ->
  py_setitem l i x = Ok (<[Z.to_nat i := x]> l).
Proof.
  intros Hi. unfold py_setitem.
  destruct (Z.ltb_spec i 0); [lia|].
  destruct (Z.leb_spec 0 i); [|lia].
  by destruct (Z.ltb_spec i (Z.of_nat (length l))); [|lia].
Qed.

Section NougatFurther.
Import NougatDataset.

Context {pil : Type}.
Variable readlines : string -> option (list string).
Variable read : string -> option string.
Variable Image_open : string -> option pil.
Variable os_path_join : string -> string -> string.
Variable image_size : pil -> Z * Z.
Variable prepare_input : pil -> bool -> option tensor.
Variable tokenizer : string -> Z -> list Z * list Z.
Variable tokenizer_len : Z.

Abbreviation nstore := (CustomDataset.getitem read Image_open os_path_join).
Abbreviation nget :=
  (getitem read Image_open os_path_join image_size prepare_input
     tokenizer tokenizer_len).
Abbreviation nconvert :=
  (convert image_size prepare_input tokenizer tokenizer_len).
Abbreviation nloop := (perturb_loop tokenizer_len).

(** One round of the loop that went through: what it drew and wrote. *)
Lemma perturb_loop_round (rounds : nat) (unpadded_length : Z)
    (input_ids : list Z) (g : rng) :
  nloop (S rounds) unpadded_length input_ids g =
    Some (Ok input_ids, (random g).2) \/
  nloop (S rounds) unpadded_length input_ids g =
    Some (Ok input_ids, (next_raw (random g).2).2) \/
  (exists (pos_ token : Z) (g' : rng),
      1 <= pos_ <= unpadded_length - 2 /\
      23 <= token <= tokenizer_len - 1 /\
      ((Z.of_nat (length input_ids) <= pos_ /\
        nloop (S rounds) unpadded_length input_ids g =
          Some (Raise IndexError, g')) \/
       (pos_ < Z.of_nat (length input_ids) /\
        nloop (S rounds) unpadded_length input_ids g =
          nloop rounds unpadded_length
            (<[Z.to_nat pos_ := token]> input_ids) g'))).
Proof.
  cbn [perturb_loop]. destruct (random g) as [u g1]. simpl.
  destruct (lt_tenth u); [|by left].
  destruct (randint 1 (unpadded_length - 2) g1) as [[pos_|e] g2] eqn:Hpos.
  - apply randint_Ok_inv in Hpos as [Hpos ->].
    destruct (randint 23 (tokenizer_len - 1) (next_raw g1).2)
      as [[token|e] g3] eqn:Htok.
    + apply randint_Ok_inv in Htok as [Htok ->].
      right; right. exists pos_, token. eexists. split; [done|]. split; [done|].
      destruct (Z.ltb_spec pos_ (Z.of_nat (length input_ids))) as [Hlt|Hge].
      * right. split; [done|]. by rewrite py_setitem_in_range by lia.
      * left. split; [done|]. unfold py_setitem.
        destruct (Z.ltb_spec pos_ 0); [lia|].
        destruct (Z.ltb_spec pos_ (Z.of_nat (length input_ids))); [lia|].
        by rewrite andb_false_r.
    + apply randint_Raise_inv in Htok as (_ & -> & ->). right; by left.
  - apply randint_Raise_inv in Hpos as (_ & -> & ->). by left.
Qed.

(** X22. Whatever the loop of perturbations returns has the length of
    the token ids it was given; position 0 and every position from
    [unpadded_length - 1] on, the padding included, hold what they held;
    and a position that changed holds a token of
    [23 .. len(tokenizer) - 1]. *)
Theorem perturbation_keeps_edges_and_padding (rounds : nat)
    (unpadded_length : Z) :
  forall (input_ids out : list Z) (g g' : rng),
    nloop rounds unpadded_length input_ids g = Some (Ok out, g') ->
    length out = length input_ids /\
    (forall k : nat,
        k = 0%nat \/ unpadded_length - 1 <= Z.of_nat k ->
        out !! k = input_ids !! k) /\
    (forall k : nat,
        out !! k = input_ids !! k \/
        exists token, out !! k = Some token /\ 23 <= token <= tokenizer_len - 1).
Proof.
  induction rounds as [|rounds IH]; intros input_ids out g g'; [discriminate|].
  destruct (perturb_loop_round rounds unpadded_length input_ids g)
    as [-> | [-> | (pos_ & token & g1 & Hpos & Htok & [[_ ->] | [Hlt ->]])]].
  - intros [= <- _]. split; [done|]. split; [done|]. by left.
  - intros [= <- _]. split; [done|]. split; [done|]. by left.
  - discriminate.
  - intros H. apply IH in H as (Hlen & Hedge & Hany).
    rewrite length_insert in Hlen. split; [done|]. split.
    + intros k Hk. rewrite Hedge by done.
      apply list_lookup_insert_ne. lia.
    + intros k. destruct (Hany k) as [Hk|Hk]; [|by right].
      destruct (decide (k = Z.to_nat pos_)) as [->|Hne].
      * right. exists token. split; [|done].
        rewrite Hk. apply list_lookup_insert_eq. lia.
      * left. rewrite Hk. by apply list_lookup_insert_ne.
Qed.

Lemma perturb_loop_no_raise (rounds : nat) (unpadded_length : Z) :
  forall (input_ids : list Z) (g : rng),
    unpadded_length <= Z.of_nat (length input_ids) + 1 ->
    forall e g', nloop rounds unpadded_length input_ids g <> Some (Raise e, g').
Proof.
  induction rounds as [|rounds IH]; intros input_ids g Hlen e g'; [done|].
  destruct (perturb_loop_round rounds unpadded_length input_ids g)
    as [Hr | [Hr | (pos_ & token & g1 & Hpos & Htok & [[Hge Hr] | [Hlt Hr]])]];
    rewrite Hr; try congruence; try lia.
  apply IH. by rewrite length_insert.
Qed.

(** X23. The loop of perturbations does not raise when the unpadded
    length is at most the number of token ids plus one; and when the
    unpadded length is below 3 it ends in its first round and returns the
    token ids unchanged. *)
Theorem perturbation_is_safe (rounds : nat) (unpadded_length : Z)
    (input_ids : list Z) (g : rng) :
  (unpadded_length <= Z.of_nat (length input_ids) + 1 ->
   forall e g', nloop rounds unpadded_length input_ids g <> Some (Raise e, g')) /\
  (unpadded_length < 3 ->
   exists g',
     nloop (S rounds) unpadded_length input_ids g = Some (Ok input_ids, g')).
Proof.
  split; [apply perturb_loop_no_raise|].
  intros Hshort.
  destruct (perturb_loop_round rounds unpadded_length input_ids g)
    as [Hr | [Hr | (pos_ & token & g1 & Hpos & _)]]; [by eexists..|lia].
Qed.

(** X24. With the perturbation off, by the flag or by the split, a read
    whose sample is there returns the tokenizer's ids and mask as they
    are and draws nothing from the random generator; the image tensor is
    [None] when the image has no area and the prepared image
    otherwise. *)
Theorem no_perturbation_returns_tokenizer_output (depth rounds : nat)
    (self : @t) (idx : Z) (g : rng) (sample : @CustomDataset.sample pil) :
  nstore (dataset self) idx = Ok (Some sample) ->
  split self <> "train" \/ perturb self = false ->
  nget (S depth) rounds self idx g =
  Some (Ok (if (image_size (CustomDataset.image sample)).1 *
               (image_size (CustomDataset.image sample)).2 =? 0
            then None
            else prepare_input (CustomDataset.image sample)
                   (String.eqb (split self) "train"),
            (tokenizer (CustomDataset.ground_truth sample) (max_length self)).1,
            (tokenizer (CustomDataset.ground_truth sample) (max_length self)).2),
        g).
Proof.
  intros Hstore Hoff. cbn [getitem]. rewrite Hstore. unfold convert.
  destruct (image_size _) as [w h]. destruct (tokenizer _ _) as [ids mask].
  simpl.
  destruct Hoff as [Hsplit | ->].
  - destruct (String.eqb_spec (split self) "train"); [done|done].
  - by rewrite andb_false_r.
Qed.

(** X25. A sample whose image has no area is not an error.  Where the
    attention mask sums to at most the number of token ids plus one, the
    read does not raise; with the perturbation off it returns [None] as
    image tensor with the tokenizer's ids and mask; and whatever triple it
    returns has [None] as its image tensor and the tokenizer's mask. *)
Theorem image_without_area_gives_no_tensor (depth rounds : nat)
    (self : @t) (idx : Z) (g : rng) (sample : @CustomDataset.sample pil) :
  nstore (dataset self) idx = Ok (Some sample) ->
  (image_size (CustomDataset.image sample)).1 *
  (image_size (CustomDataset.image sample)).2 = 0 ->
  foldr Z.add 0
    (tokenizer (CustomDataset.ground_truth sample) (max_length self)).2 <=
  Z.of_nat
    (length (tokenizer (CustomDataset.ground_truth sample) (max_length self)).1)
  + 1 ->
  (forall e g', nget (S depth) rounds self idx g <> Some (Raise e, g')) /\
  (split self <> "train" \/ perturb self = false ->
   nget (S depth) rounds self idx g =
   Some (Ok (None,
             (tokenizer (CustomDataset.ground_truth sample) (max_length self)).1,
             (tokenizer (CustomDataset.ground_truth sample) (max_length self)).2),
         g)) /\
  (forall out g',
     nget (S depth) rounds self idx g = Some (Ok out, g') ->
     out.1.1 = None /\
     out.2 = (tokenizer (CustomDataset.ground_truth sample) (max_length self)).2).
Proof.
  intros Hstore Harea Hmask. cbn [getitem]. rewrite Hstore. unfold convert.
  destruct (image_size _) as [w h]. simpl in Harea. rewrite Harea.
  destruct (tokenizer _ _) as [ids mask]. simpl in *.
  split; [|split].
  - intros e g'. destruct (_ && _); [|done].
    pose proof (perturb_loop_no_raise rounds (foldr Z.add 0 mask) ids g Hmask)
      as Hsafe.
    destruct (perturb_loop _ _ _ _ _) as [[[ids'|e'] g1]|]; [done| |done].
    by destruct (Hsafe e' g1).
  - intros [Hsplit | ->].
    + by destruct (String.eqb_spec (split self) "train").
    + by rewrite andb_false_r.
  - intros out g'. destruct (_ && _).
    + destruct (perturb_loop _ _ _ _ _) as [[[ids'|e] g1]|]; [|done|done].
      by intros [= <- _].
    + by intros [= <- _].
Qed.

(** X26. A retry whose draw falls on an index with a sample returns what
    a read of that index returns, from the generator after the draw. *)
Theorem retry_returns_the_drawn_sample (depth rounds : nat)
    (self : @t) (idx : Z) (g : rng) (sample : @CustomDataset.sample pil) :
  nstore (dataset self) idx = Ok None ->
  0 < len self ->
  nstore (dataset self) (draws g (cursor g) mod len self) = Ok (Some sample) ->
  nget (S (S depth)) rounds self idx g =
  nconvert rounds self sample (next_raw g).2.
Proof.
  intros Hnone Hlen Hsample. unfold len in *.
  assert (Hdraw : randint 0 (dataset_length self - 1) g =
                  (Ok (draws g (cursor g) mod dataset_length self),
                   (next_raw g).2)).
  { unfold randint. destruct (Z.ltb_spec (dataset_length self - 1) 0); [lia|].
    simpl. do 2 f_equal. rewrite Z.add_0_l. f_equal. lia. }
  rewrite getitem_sentinel_step, Hdraw by done.
  cbn [getitem]. by rewrite Hsample.
Qed.

(** X27. For the split [train] the length of the dataset is the number
    of lines of the image list; the perturbation flag is on exactly when
    the environment variable is set to a non-empty string, whatever the
    string says. *)
Theorem train_length_and_flag
    (image_list_path sentences_path image_path : string)
    (max_length : Z) (env : option string) (self : @t) :
  init readlines image_list_path sentences_path image_path
    max_length "train" env = Ok self ->
  (exists lines, readlines image_list_path = Some lines /\
                 len self = Z.of_nat (length lines)) /\
  (perturb self = true <-> exists v, env = Some v /\ v <> "").
Proof.
  unfold init. intros H. apply rbind_Ok in H as (store & Hstore & H).
  injection H as <-. unfold len. simpl.
  unfold CustomDataset.init in Hstore.
  destruct (readlines image_list_path) as [lines|]; [|discriminate].
  injection Hstore as <-. split; [by exists lines|].
  unfold perturb_of_env, truthy. destruct env as [v|].
  - destruct (String.eqb_spec v ""); simpl.
    + split; [done|]. intros (v' & [= <-] & Hv). done.
    + split; [|done]. intros _. by exists v.
  - split; [done|]. by intros (v & ? & _).
Qed.

End NougatFurther.

(** ** The further properties at concrete objects *)


Lemma sentinel_iff_unusable_witness :
  SciPDFDataset.unusable Fixtures.loads Fixtures.path_join Fixtures.path_exists
    Fixtures.open_image Fixtures.three_records Fixtures.line1 /\
  SciPDFDataset.decode (fun _ => Some (JDict ∅)) Fixtures.path_join
    Fixtures.path_exists Fixtures.open_image Fixtures.three_records
    Fixtures.line1 = Raise KeyError /\
  SciPDFDataset.decode (fun _ => Some (JInt 3)) Fixtures.path_join
    Fixtures.path_exists Fixtures.open_image Fixtures.three_records
    Fixtures.line1 = Raise AttributeError /\
  SciPDFDataset.decode (fun _ => Some (JDict (<["image" := JStr "p0.png"]> ∅)))
    Fixtures.path_join Fixtures.path_exists Fixtures.open_image
    Fixtures.three_records Fixtures.line1 = Raise KeyError.
Proof.
  split; [|split; [|split]].
  - apply (proj1 (sentinel_iff_unusable Fixtures.loads Fixtures.path_join
                    Fixtures.path_exists Fixtures.open_image
                    Fixtures.three_records Fixtures.line1)).
    reflexivity.
  - destruct (sentinel_iff_unusable (fun _ => Some (JDict ∅)) Fixtures.path_join
                Fixtures.path_exists Fixtures.open_image
                Fixtures.three_records Fixtures.line1) as (_ & _ & _ & Hdict).
    exact (proj1 (Hdict ∅ eq_refl) eq_refl).
  - destruct (sentinel_iff_unusable (fun _ => Some (JInt 3)) Fixtures.path_join
                Fixtures.path_exists Fixtures.open_image
                Fixtures.three_records Fixtures.line1) as (_ & _ & Hother & _).
    apply (Hother (JInt 3) eq_refl); intros x Hx; discriminate Hx.
  - destruct (sentinel_iff_unusable
                (fun _ => Some (JDict (<["image" := JStr "p0.png"]> ∅)))
                Fixtures.path_join Fixtures.path_exists Fixtures.open_image
                Fixtures.three_records Fixtures.line1) as (_ & _ & _ & Hdict).
    destruct (Hdict _ eq_refl) as (_ & _ & Himage).
    exact (proj2 (Himage "p0.png" eq_refl eq_refl) "data/arxiv/p0.png"
             eq_refl eq_refl).
Defined.

Lemma usable_record_gives_sample_witness :
  exists m : gmap string json,
    SciPDFDataset.decode Fixtures.loads Fixtures.path_join Fixtures.path_exists
      Fixtures.open_image Fixtures.three_records Fixtures.line0 =
    Ok (Some {| SciPDFDataset.image := "data/arxiv/p0.png";
                SciPDFDataset.ground_truth := JStr "first";
                SciPDFDataset.meta := m |}) /\
    m !! "image" = None /\ m !! "markdown" = None.
Proof.
  destruct (usable_record_gives_sample Fixtures.loads Fixtures.path_join
              Fixtures.path_exists Fixtures.open_image
              Fixtures.three_records Fixtures.line0
              (<["image" := JStr "p0.png"]> (<["markdown" := JStr "first"]> ∅))
              "p0.png" (JStr "first") "data/arxiv/p0.png")
    as (m & H1 & H2 & H3 & _); try reflexivity.
  exists m. split; [exact H1|]. split; [exact H2|exact H3].
Defined.

Lemma file_opened_once_witness :
  SciPDFDataset.dataset_file (Fixtures.read_record Fixtures.three_records 1).2
    <> None /\
  SciPDFDataset.getitem Fixtures.loads Fixtures.path_join Fixtures.path_exists
    (fun _ => Raise (OtherException "closed")) Fixtures.read_ahead
    Fixtures.open_image
    MoreFixtures.three_records_open 2 =
  Fixtures.read_record MoreFixtures.three_records_open 2.
Proof.
  split.
  - apply (proj1 (file_opened_once Fixtures.loads Fixtures.path_join
                    Fixtures.path_exists Fixtures.path_open Fixtures.read_ahead Fixtures.open_image
                    Fixtures.three_records 1 Fixtures.path_open) None).
    reflexivity.
  - apply (proj2 (file_opened_once Fixtures.loads Fixtures.path_join
                    Fixtures.path_exists Fixtures.path_open Fixtures.read_ahead Fixtures.open_image
                    MoreFixtures.three_records_open 2
                    (fun _ => Raise (OtherException "closed")))).
    discriminate.
Defined.

Lemma reads_keep_length_witness :
  SciPDFDataset.len
    (SciPDFIter.iter_over Fixtures.loads Fixtures.path_join Fixtures.path_exists
       Fixtures.path_open Fixtures.read_ahead Fixtures.open_image Fixtures.three_records [2; 7; 0]).2 =
  SciPDFDataset.len Fixtures.three_records.
Proof.
  apply (reads_keep_length Fixtures.loads Fixtures.path_join Fixtures.path_exists
           Fixtures.path_open Fixtures.read_ahead Fixtures.open_image Fixtures.three_records [2; 7; 0]).
  reflexivity.
Defined.

Lemma iter_yields_the_reads_witness :
  0 <= SciPDFDataset.dataset_length Fixtures.three_records /\
  Z.of_nat
    (length (SciPDFIter.iter Fixtures.loads Fixtures.path_join Fixtures.path_exists
               Fixtures.path_open Fixtures.read_ahead Fixtures.open_image Fixtures.three_records).1.1) =
  SciPDFDataset.len Fixtures.three_records.
Proof.
  assert (Hlen : 0 <= SciPDFDataset.dataset_length Fixtures.three_records)
    by (simpl; lia).
  split; [exact Hlen|].
  apply (iter_yields_the_reads Fixtures.loads Fixtures.path_join
           Fixtures.path_exists Fixtures.path_open Fixtures.read_ahead Fixtures.open_image
           Fixtures.three_records Hlen).
  reflexivity.
Defined.

Lemma other_split_reads_empty_entry_witness :
  CustomDataset.split (NougatDataset.dataset Fixtures.validation_set) <> "train" /\
  CustomDataset.getitem Fixtures.read_sentence Fixtures.open_second
    Fixtures.path_join (NougatDataset.dataset Fixtures.validation_set) 0 = Ok None /\
  CustomDataset.getitem Fixtures.read_sentence Fixtures.open_second
    Fixtures.path_join (NougatDataset.dataset Fixtures.validation_set) 1 =
    Raise IndexError.
Proof.
  assert (Hsplit : CustomDataset.split
                     (NougatDataset.dataset Fixtures.validation_set) <> "train")
    by discriminate.
  split; [exact Hsplit|].
  destruct (other_split_reads_empty_entry Fixtures.read_sentence
              Fixtures.open_second Fixtures.path_join
              (NougatDataset.dataset Fixtures.validation_set) Hsplit)
    as (_ & _ & _ & Hnone & Hout).
  split; [apply Hnone; reflexivity | apply Hout; lia].
Defined.

Lemma train_split_reads_witness :
  CustomDataset.getitem Fixtures.read_sentence Fixtures.open_second
    Fixtures.path_join (NougatDataset.dataset Fixtures.train_set) 2 =
    Raise IndexError /\
  exists items,
    CustomDataset.iter Fixtures.read_sentence Fixtures.open_second
      Fixtures.path_join (NougatDataset.dataset Fixtures.train_set) = Ok items /\
    Z.of_nat (length items) = 2.
Proof.
  destruct (train_split_reads Fixtures.read_sentence Fixtures.open_second
              Fixtures.path_join (NougatDataset.dataset Fixtures.train_set)
              eq_refl) as [Hidx Hiter].
  split; [|exact Hiter].
  apply (proj1 (Hidx 2)). right. unfold CustomDataset.len. simpl. lia.
Defined.

Lemma sample_paths_witness :
  exists entry : string,
    py_getitem ["a.png" +:+ Fixtures.nl; "b/c.png" +:+ Fixtures.nl] 1 = Ok entry /\
    Fixtures.read_sentence
      (Fixtures.path_join "sentences"
         (replace_char "/"%char "_" (replace_char newline "" entry) +:+ ".txt")) =
    Some "x squared".
Proof.
  destruct (sample_paths Fixtures.read_sentence Fixtures.open_second
              Fixtures.path_join (NougatDataset.dataset Fixtures.train_set) 1
              {| CustomDataset.image := "images/b/c.png";
                 CustomDataset.ground_truth := "x squared";
                 CustomDataset.meta_img_path := "images/b/c.png" |} eq_refl)
    as (entry & H1 & _ & _ & H4 & _).
  exists entry. split; [exact H1 | exact H4].
Defined.

Lemma perturbation_keeps_edges_and_padding_witness :
  NougatDataset.perturb_loop 50000 8 4 [0; 31; 47; 2; 1; 1]
    MoreFixtures.one_perturbation =
    Some (Ok [0; 23; 47; 2; 1; 1],
          {| draws := draws MoreFixtures.one_perturbation; cursor := 4 |}) /\
  length [0; 23; 47; 2; 1; 1] = length [0; 31; 47; 2; 1; 1].
Proof.
  assert (Hrun : NougatDataset.perturb_loop 50000 8 4 [0; 31; 47; 2; 1; 1]
                   MoreFixtures.one_perturbation =
                 Some (Ok [0; 23; 47; 2; 1; 1],
                       {| draws := draws MoreFixtures.one_perturbation;
                          cursor := 4 |})) by reflexivity.
  split; [exact Hrun|].
  exact (proj1 (perturbation_keeps_edges_and_padding 50000 8 4 _ _ _ _ Hrun)).
Defined.

Lemma perturbation_is_safe_witness :
  (forall e g',
      NougatDataset.perturb_loop 50000 8 4 [0; 31; 47; 2; 1; 1]
        MoreFixtures.one_perturbation <> Some (Raise e, g')) /\
  (exists g',
      NougatDataset.perturb_loop 50000 1 2 [0; 2; 1; 1]
        MoreFixtures.one_perturbation = Some (Ok [0; 2; 1; 1], g')).
Proof.
  split.
  - apply (proj1 (perturbation_is_safe 50000 8 4 [0; 31; 47; 2; 1; 1]
                    MoreFixtures.one_perturbation)).
    simpl. lia.
  - apply (proj2 (perturbation_is_safe 50000 0 2 [0; 2; 1; 1]
                    MoreFixtures.one_perturbation)).
    lia.
Defined.

Lemma no_perturbation_returns_tokenizer_output_witness :
  Fixtures.readable 1 Fixtures.train_set 1 (Fixtures.constant_rng 7) =
  Some (Ok (Some Fixtures.imgA, [0; 31; 47; 2; 1; 1], [1; 1; 1; 1; 0; 0]),
        Fixtures.constant_rng 7).
Proof.
  apply (no_perturbation_returns_tokenizer_output
           Fixtures.read_sentence Fixtures.open_second Fixtures.path_join
           Fixtures.image_size Fixtures.prepare_input Fixtures.tokenizer 50000
           0 8 Fixtures.train_set 1 (Fixtures.constant_rng 7)
           {| CustomDataset.image := "images/b/c.png";
              CustomDataset.ground_truth := "x squared";
              CustomDataset.meta_img_path := "images/b/c.png" |}).
  - reflexivity.
  - right. reflexivity.
Defined.

Lemma image_without_area_gives_no_tensor_witness :
  MoreFixtures.flat 1 Fixtures.train_set 1 (Fixtures.constant_rng 7) =
    Some (Ok (None, [0; 31; 47; 2; 1; 1], [1; 1; 1; 1; 0; 0]),
          Fixtures.constant_rng 7) /\
  forall e g',
    MoreFixtures.flat 1 Fixtures.train_set 1 (Fixtures.constant_rng 7) <>
    Some (Raise e, g').
Proof.
  destruct (image_without_area_gives_no_tensor
              Fixtures.read_sentence Fixtures.open_second Fixtures.path_join
              MoreFixtures.flat_size Fixtures.prepare_input Fixtures.tokenizer
              50000 0 8 Fixtures.train_set 1 (Fixtures.constant_rng 7)
              {| CustomDataset.image := "images/b/c.png";
                 CustomDataset.ground_truth := "x squared";
                 CustomDataset.meta_img_path := "images/b/c.png" |})
    as (Hsafe & Hoff & _).
  - reflexivity.
  - reflexivity.
  - simpl. lia.
  - split; [apply Hoff; right; reflexivity | exact Hsafe].
Defined.

Lemma retry_returns_the_drawn_sample_witness :
  Fixtures.readable 2 Fixtures.train_set 0 (Fixtures.constant_rng 7) =
  NougatDataset.convert Fixtures.image_size Fixtures.prepare_input
    Fixtures.tokenizer 50000 8 Fixtures.train_set
    {| CustomDataset.image := "images/b/c.png";
       CustomDataset.ground_truth := "x squared";
       CustomDataset.meta_img_path := "images/b/c.png" |}
    (next_raw (Fixtures.constant_rng 7)).2.
Proof.
  apply (retry_returns_the_drawn_sample
           Fixtures.read_sentence Fixtures.open_second Fixtures.path_join
           Fixtures.image_size Fixtures.prepare_input Fixtures.tokenizer 50000
           0 8 Fixtures.train_set 0 (Fixtures.constant_rng 7)).
  - reflexivity.
  - unfold NougatDataset.len. simpl. lia.
  - reflexivity.
Defined.

Lemma train_length_and_flag_witness :
  Fixtures.nougat_init "train" = Ok Fixtures.train_set /\
  exists lines, Fixtures.readlines "images.txt" = Some lines /\
                NougatDataset.len Fixtures.train_set = Z.of_nat (length lines).
Proof.
  assert (Hinit : Fixtures.nougat_init "train" = Ok Fixtures.train_set)
    by reflexivity.
  split; [exact Hinit|].
  exact (proj1 (train_length_and_flag Fixtures.readlines
                  "images.txt" "sentences" "images" 6 None
                  Fixtures.train_set Hinit)).
Defined.
